(** * Person/Address/Class/Account API: a shallow embedding of [main.py]

    The service keeps four process-wide dictionaries ([persons],
    [addresses], [classes], [accounts]) and exposes, per collection, a
    create, a filtered list, a point lookup and a PATCH handler.  The
    handlers are embedded as computations in a small state-and-exception
    monad over a [World] holding the four dictionaries together with the
    two sources of non-determinism the models draw from
    ([datetime.utcnow] and [uuid4]). *)

From Stdlib Require Import List String Ascii ZArith NArith Bool Lia.
From Stdlib Require Import SpecFloat DecimalString DecimalNat.
Import ListNotations.
Local Open Scope string_scope.

Set Implicit Arguments.
Set Warnings "-register-all".

(** ** Primitive data *)

(** A [uuid.UUID] is a 128-bit number; only its equality is used. *)
Definition UUID := N.

(** A naive [datetime.datetime], as microseconds on the UTC time line. *)
Definition datetime := Z.

(** A Python [float] is an IEEE-754 binary64 value. *)
Definition float := spec_float.

(** Python's [==] on floats: a NaN equals nothing, the two zeros are equal. *)
Definition float_eq (x y : float) : bool := SFeqb x y.

(** A [datetime.date]. *)
Record date := mkDate { year : nat; month : nat; day : nat }.

(** ** Values held by a dumped model

    [model_dump()] returns a [dict] from field names to Python values;
    [Value] is the tagged union of the values that occur in this service. *)
Inductive Value : Type :=
| VNone
| VStr (s : string)
| VInt (n : Z)
| VFloat (x : float)
| VUuid (u : UUID)
| VDatetime (t : datetime)
| VDate (d : date)
| VList (l : list Value)
| VDict (d : list (string * Value)).

(** A [dict] with [str] keys, in insertion order; keys are unique. *)
Definition kwargs := list (string * Value).

Fixpoint kw_get (k : string) (d : kwargs) : option Value :=
  match d with
  | [] => None
  | (k', v) :: d' => if String.eqb k k' then Some v else kw_get k d'
  end.

(** [d[k] = v]: an existing key keeps its place, a new key goes last. *)
Fixpoint kw_set (k : string) (v : Value) (d : kwargs) : kwargs :=
  match d with
  | [] => [(k, v)]
  | (k', v') :: d' =>
      if String.eqb k k' then (k', v) :: d' else (k', v') :: kw_set k v d'
  end.

(** [d.update(u)]: the items of [u] are assigned into [d] one by one. *)
Definition kw_update (d u : kwargs) : kwargs :=
  fold_left (fun acc kv => kw_set (fst kv) (snd kv) acc) u d.

(** ** The in-memory "databases": insertion-ordered dictionaries *)

Definition Dict (V : Type) := list (UUID * V).

Section DictOps.
Variable V : Type.

(** [k in d] *)
Fixpoint dict_contains (k : UUID) (d : Dict V) : bool :=
    match d with
    | [] => false
    | (k', _) :: d' => N.eqb k k' || dict_contains k d'
    end.

(** [d[k]], [None] standing for [KeyError]. *)
Fixpoint dict_get (k : UUID) (d : Dict V) : option V :=
    match d with
    | [] => None
    | (k', v) :: d' => if N.eqb k k' then Some v else dict_get k d'
    end.

(** [d[k] = v] *)
Fixpoint dict_set (k : UUID) (v : V) (d : Dict V) : Dict V :=
    match d with
    | [] => [(k, v)]
    | (k', v') :: d' =>
        if N.eqb k k' then (k', v) :: d' else (k', v') :: dict_set k v d'
    end.

(** [list(d.values())] *)
Definition dict_values (d : Dict V) : list V := map snd d.

Definition dict_keys (d : Dict V) : list UUID := map fst d.
End DictOps.

(** ** Exceptions *)

Inductive Exception : Type :=
| HTTPException (status_code : Z) (detail : string)
| AttributeError (type_name attr : string)
| ValidationError (model field : string)
| KeyError (key : UUID)
| TypeError (what : string).

Inductive Result (A : Type) : Type :=
| Ok (a : A)
| Raise (e : Exception).
Arguments Ok {A} a.
Arguments Raise {A} e.

(** ** models/account.py *)

(** [AccountCreate(AccountBase)]: the three required domain fields. *)
Module AccountCreate.
Record t := Build
  { username : string;
      number_id : Z;
      amount : float }.

Definition model_dump (a : t) : kwargs :=
  [ ("username", VStr (username a));
      ("number_id", VInt (number_id a));
      ("amount", VFloat (amount a)) ].
End AccountCreate.

(** [AccountUpdate(BaseModel)]: every field is [Optional] with default
    [None]; [model_fields_set] records the names of the fields the caller
    supplied, whether with a value or with an explicit null. *)
Module AccountUpdate.
Record t := Build
  { username : option string;
      number_id : option Z;
      amount : option float;
      model_fields_set : list string }.

Definition is_set (f : string) (u : t) : bool :=
    existsb (String.eqb f) (model_fields_set u).

Definition model_dump (u : t) : kwargs :=
  [ ("username", match username u with Some s => VStr s | None => VNone end);
      ("number_id", match number_id u with Some n => VInt n | None => VNone end);
      ("amount", match amount u with Some x => VFloat x | None => VNone end) ].

(** [model_dump(exclude_unset=True)] *)
Definition model_dump_exclude_unset (u : t) : kwargs :=
    filter (fun kv => is_set (fst kv) u) (model_dump u).
End AccountUpdate.

(** [AccountRead(AccountBase)]: the domain fields, then [id],
    [created_at] and [updated_at], each with a default factory. *)
Module AccountRead.
Record t := Build
  { username : string;
      number_id : Z;
      amount : float;
      id : UUID;
      created_at : datetime;
      updated_at : datetime }.

Definition model_dump (a : t) : kwargs :=
  [ ("username", VStr (username a));
      ("number_id", VInt (number_id a));
      ("amount", VFloat (amount a));
      ("id", VUuid (id a));
      ("created_at", VDatetime (created_at a));
      ("updated_at", VDatetime (updated_at a)) ].
End AccountRead.

(** ** models/classes.py *)

(** [ClassCreate(ClassBase)]: [name] is required, [description] is
    [Optional[str]] with default [None]. *)
Module ClassCreate.
Record t := Build
  { name : string;
      description : option string }.

Definition model_dump (c : t) : kwargs :=
  [ ("name", VStr (name c));
      ("description",
        match description c with Some s => VStr s | None => VNone end) ].
End ClassCreate.

Module ClassUpdate.
Record t := Build
  { name : option string;
      description : option string;
      model_fields_set : list string }.

Definition is_set (f : string) (u : t) : bool :=
    existsb (String.eqb f) (model_fields_set u).

Definition model_dump (u : t) : kwargs :=
  [ ("name", match name u with Some s => VStr s | None => VNone end);
      ("description",
        match description u with Some s => VStr s | None => VNone end) ].

Definition model_dump_exclude_unset (u : t) : kwargs :=
    filter (fun kv => is_set (fst kv) u) (model_dump u).
End ClassUpdate.

(** [ClassRead(ClassBase)]: the two domain fields and the two timestamps.
    The model declares no [id] field. *)
Module ClassRead.
Record t := Build
  { name : string;
      description : option string;
      created_at : datetime;
      updated_at : datetime }.

Definition model_dump (c : t) : kwargs :=
  [ ("name", VStr (name c));
      ("description",
        match description c with Some s => VStr s | None => VNone end);
      ("created_at", VDatetime (created_at c));
      ("updated_at", VDatetime (updated_at c)) ].
End ClassRead.

(** ** models/address.py and models/person.py

    The two modules are imported by [main.py]; their field sets are the
    ones the handlers and the data model name. *)

Module AddressBase.
(** Modelled from the spec: the Address shape ([models/address.py] is not
    part of the sources at hand).  [create_address] reads [address.id], so
    the identity belongs to the base shape; the domain fields are [street],
    [city], [state], [postal_code] and [country].  The same shape is the
    entry type of a Person's embedded address list. *)
Record t := Build
  { id : UUID;
    street : string;
    city : string;
    state : string;
    postal_code : string;
    country : string }.

Definition model_dump (a : t) : kwargs :=
  [ ("id", VUuid (id a));
    ("street", VStr (street a));
    ("city", VStr (city a));
    ("state", VStr (state a));
    ("postal_code", VStr (postal_code a));
    ("country", VStr (country a)) ].
End AddressBase.

Module AddressUpdate.
(** Modelled from the spec: the Address update shape, every domain field
    optional and independently omittable; [id] is not part of it. *)
Record t := Build
  { street : option string;
    city : option string;
    state : option string;
    postal_code : option string;
    country : option string;
    model_fields_set : list string }.

Definition is_set (f : string) (u : t) : bool :=
  existsb (String.eqb f) (model_fields_set u).

Definition dump_opt_str (o : option string) : Value :=
  match o with Some s => VStr s | None => VNone end.

Definition model_dump (u : t) : kwargs :=
  [ ("street", dump_opt_str (street u));
    ("city", dump_opt_str (city u));
    ("state", dump_opt_str (state u));
    ("postal_code", dump_opt_str (postal_code u));
    ("country", dump_opt_str (country u)) ].

Definition model_dump_exclude_unset (u : t) : kwargs :=
  filter (fun kv => is_set (fst kv) u) (model_dump u).
End AddressUpdate.

Module AddressRead.
(** Modelled from the spec: the stored Address record, the base shape
    with [created_at] and [updated_at]. *)
Record t := Build
  { id : UUID;
    street : string;
    city : string;
    state : string;
    postal_code : string;
    country : string;
    created_at : datetime;
    updated_at : datetime }.

Definition model_dump (a : t) : kwargs :=
  [ ("id", VUuid (id a));
    ("street", VStr (street a));
    ("city", VStr (city a));
    ("state", VStr (state a));
    ("postal_code", VStr (postal_code a));
    ("country", VStr (country a));
    ("created_at", VDatetime (created_at a));
    ("updated_at", VDatetime (updated_at a)) ].
End AddressRead.

Module PersonCreate.
(** Modelled from the spec: the Person creation shape
    ([models/person.py] is not part of the sources at hand): [uni],
    [first_name], [last_name], [email], [phone], a [birth_date] that is a
    date and not text, and the ordered list of embedded addresses. *)
Record t := Build
  { uni : string;
    first_name : string;
    last_name : string;
    email : string;
    phone : string;
    birth_date : date;
    addresses : list AddressBase.t }.

Definition model_dump (p : t) : kwargs :=
  [ ("uni", VStr (uni p));
    ("first_name", VStr (first_name p));
    ("last_name", VStr (last_name p));
    ("email", VStr (email p));
    ("phone", VStr (phone p));
    ("birth_date", VDate (birth_date p));
    ("addresses",
      VList (map (fun a => VDict (AddressBase.model_dump a)) (addresses p))) ].
End PersonCreate.

Module PersonUpdate.
(** Modelled from the spec: the Person update shape. *)
Record t := Build
  { uni : option string;
    first_name : option string;
    last_name : option string;
    email : option string;
    phone : option string;
    birth_date : option date;
    addresses : option (list AddressBase.t);
    model_fields_set : list string }.

Definition is_set (f : string) (u : t) : bool :=
  existsb (String.eqb f) (model_fields_set u).

Definition model_dump (u : t) : kwargs :=
  [ ("uni", AddressUpdate.dump_opt_str (uni u));
    ("first_name", AddressUpdate.dump_opt_str (first_name u));
    ("last_name", AddressUpdate.dump_opt_str (last_name u));
    ("email", AddressUpdate.dump_opt_str (email u));
    ("phone", AddressUpdate.dump_opt_str (phone u));
    ("birth_date",
      match birth_date u with Some d => VDate d | None => VNone end);
    ("addresses",
      match addresses u with
      | Some l => VList (map (fun a => VDict (AddressBase.model_dump a)) l)
      | None => VNone
      end) ].

Definition model_dump_exclude_unset (u : t) : kwargs :=
  filter (fun kv => is_set (fst kv) u) (model_dump u).
End PersonUpdate.

Module PersonRead.
(** Modelled from the spec: the stored Person record, the creation shape
    with the server-assigned [id] and the two timestamps. *)
Record t := Build
  { uni : string;
    first_name : string;
    last_name : string;
    email : string;
    phone : string;
    birth_date : date;
    addresses : list AddressBase.t;
    id : UUID;
    created_at : datetime;
    updated_at : datetime }.

Definition model_dump (p : t) : kwargs :=
  [ ("uni", VStr (uni p));
    ("first_name", VStr (first_name p));
    ("last_name", VStr (last_name p));
    ("email", VStr (email p));
    ("phone", VStr (phone p));
    ("birth_date", VDate (birth_date p));
    ("addresses",
      VList (map (fun a => VDict (AddressBase.model_dump a)) (addresses p)));
    ("id", VUuid (id p));
    ("created_at", VDatetime (created_at p));
    ("updated_at", VDatetime (updated_at p)) ].
End PersonRead.

(** ** The world the handlers run in

    The four module-level dictionaries, and the two things the models ask
    the outside for: [clock k] is what the [k]-th call of
    [datetime.utcnow()] returns, [uuid_source k] what the [k]-th call of
    [uuid4()] returns. *)
Record World := mkWorld
  { persons : Dict PersonRead.t;
    addresses : Dict AddressRead.t;
    classes : Dict ClassRead.t;
    accounts : Dict AccountRead.t;
    clock : nat -> datetime;
    clock_reads : nat;
    uuid_source : nat -> UUID;
    uuid_draws : nat }.

Definition set_persons (d : Dict PersonRead.t) (w : World) : World :=
  mkWorld d (addresses w) (classes w) (accounts w)
          (clock w) (clock_reads w) (uuid_source w) (uuid_draws w).

Definition set_addresses (d : Dict AddressRead.t) (w : World) : World :=
  mkWorld (persons w) d (classes w) (accounts w)
          (clock w) (clock_reads w) (uuid_source w) (uuid_draws w).

Definition set_classes (d : Dict ClassRead.t) (w : World) : World :=
  mkWorld (persons w) (addresses w) d (accounts w)
          (clock w) (clock_reads w) (uuid_source w) (uuid_draws w).

Definition set_accounts (d : Dict AccountRead.t) (w : World) : World :=
  mkWorld (persons w) (addresses w) (classes w) d
          (clock w) (clock_reads w) (uuid_source w) (uuid_draws w).

(** ** The handler monad: state and exceptions

    An exception leaves the world as it was when it was raised. *)
Definition M (A : Type) : Type := World -> Result A * World.

Definition ret {A} (a : A) : M A := fun w => (Ok a, w).

Definition raise {A} (e : Exception) : M A := fun w => (Raise e, w).

Definition bind {A B} (c : M A) (k : A -> M B) : M B :=
  fun w =>
    match c w with
    | (Ok a, w') => k a w'
    | (Raise e, w') => (Raise e, w')
    end.

Declare Scope py_scope.
Delimit Scope py_scope with py.
Notation "x <- c ;; k" := (bind c (fun x => k))
  (at level 61, c at next level, right associativity) : py_scope.
Notation "c ;; k" := (bind c (fun _ => k))
  (at level 61, right associativity) : py_scope.
Local Open Scope py_scope.

(** [datetime.utcnow()] *)
Definition utcnow : M datetime :=
  fun w =>
    (Ok (clock w (clock_reads w)),
     mkWorld (persons w) (addresses w) (classes w) (accounts w)
             (clock w) (S (clock_reads w)) (uuid_source w) (uuid_draws w)).

(** [uuid4()] *)
Definition uuid4 : M UUID :=
  fun w =>
    (Ok (uuid_source w (uuid_draws w)),
     mkWorld (persons w) (addresses w) (classes w) (accounts w)
             (clock w) (clock_reads w) (uuid_source w) (S (uuid_draws w))).

(** One of the four module-level dictionaries, as a place in the world. *)
Record Store (V : Type) := mkStore
  { load : World -> Dict V;
    save : Dict V -> World -> World }.

Definition persons_db : Store PersonRead.t := mkStore persons set_persons.
Definition addresses_db : Store AddressRead.t := mkStore addresses set_addresses.
Definition classes_db : Store ClassRead.t := mkStore classes set_classes.
Definition accounts_db : Store AccountRead.t := mkStore accounts set_accounts.

(** [k in db] *)
Definition contains {V} (db : Store V) (k : UUID) : M bool :=
  fun w => (Ok (dict_contains k (load db w)), w).

(** [db[k]] *)
Definition getitem {V} (db : Store V) (k : UUID) : M V :=
  fun w =>
    match dict_get k (load db w) with
    | Some v => (Ok v, w)
    | None => (Raise (KeyError k), w)
    end.

(** [db[k] = v] *)
Definition setitem {V} (db : Store V) (k : UUID) (v : V) : M unit :=
  fun w => (Ok tt, save db (dict_set k v (load db w)) w).

(** [list(db.values())] *)
Definition values {V} (db : Store V) : M (list V) :=
  fun w => (Ok (dict_values (load db w)), w).

(** ** Pydantic: validating keyword arguments into a model

    A model call passes a dictionary [kw] as keyword arguments; it walks
    the declared fields in order: a field present in [kw] is validated against its annotation, an absent field
    takes its default or the result of its default factory, an absent field
    without default is an error, and keys of [kw] that name no field are
    ignored.  The dictionaries that reach a model call in [main.py] are
    dumps of already validated models, so a value carries either the tag of
    its field or [None]; coercions between tags are not needed and a value
    of another tag is refused.  The first offending field ends the call. *)

Definition as_str (v : Value) : option string :=
  match v with VStr s => Some s | _ => None end.

Definition as_int (v : Value) : option Z :=
  match v with VInt n => Some n | _ => None end.

Definition as_float (v : Value) : option float :=
  match v with VFloat x => Some x | _ => None end.

Definition as_uuid (v : Value) : option UUID :=
  match v with VUuid u => Some u | _ => None end.

Definition as_datetime (v : Value) : option datetime :=
  match v with VDatetime t => Some t | _ => None end.

Definition as_date (v : Value) : option date :=
  match v with VDate d => Some d | _ => None end.

(** [Optional[T]] *)
Definition as_optional {T} (inner : Value -> option T) (v : Value)
  : option (option T) :=
  match v with
  | VNone => Some None
  | _ => match inner v with Some x => Some (Some x) | None => None end
  end.

(** A field declared with [Field(...)]: required. *)
Definition required {T} (model field : string) (validate : Value -> option T)
           (kw : kwargs) : M T :=
  match kw_get field kw with
  | Some v =>
      match validate v with
      | Some x => ret x
      | None => raise (ValidationError model field)
      end
  | None => raise (ValidationError model field)
  end.

(** A field declared with [Field(default_factory=...)]. *)
Definition with_default_factory {T} (model field : string)
           (validate : Value -> option T) (factory : M T) (kw : kwargs) : M T :=
  match kw_get field kw with
  | Some v =>
      match validate v with
      | Some x => ret x
      | None => raise (ValidationError model field)
      end
  | None => factory
  end.

(** A field declared with [Field(None, ...)]. *)
Definition with_default {T} (model field : string)
           (validate : Value -> option T) (default : T) (kw : kwargs) : M T :=
  with_default_factory model field validate (ret default) kw.

(** The model call [AccountRead] on the keyword arguments [kw]. *)
Definition new_AccountRead (kw : kwargs) : M AccountRead.t :=
  username <- required "AccountRead" "username" as_str kw ;;
  number_id <- required "AccountRead" "number_id" as_int kw ;;
  amount <- required "AccountRead" "amount" as_float kw ;;
  id <- with_default_factory "AccountRead" "id" as_uuid uuid4 kw ;;
  created_at <-
    with_default_factory "AccountRead" "created_at" as_datetime utcnow kw ;;
  updated_at <-
    with_default_factory "AccountRead" "updated_at" as_datetime utcnow kw ;;
  ret (AccountRead.Build username number_id amount id created_at updated_at).

(** The model call [ClassRead] on the keyword arguments [kw]. *)
Definition new_ClassRead (kw : kwargs) : M ClassRead.t :=
  name <- required "ClassRead" "name" as_str kw ;;
  description <-
    with_default "ClassRead" "description" (as_optional as_str) None kw ;;
  created_at <-
    with_default_factory "ClassRead" "created_at" as_datetime utcnow kw ;;
  updated_at <-
    with_default_factory "ClassRead" "updated_at" as_datetime utcnow kw ;;
  ret (ClassRead.Build name description created_at updated_at).

(** Modelled from the spec: validation of one entry of a dumped address
    list back into the Address shape of the missing [models/address.py]. *)
Definition as_address (v : Value) : option AddressBase.t :=
  match v with
  | VDict d =>
      match kw_get "id" d, kw_get "street" d, kw_get "city" d,
            kw_get "state" d, kw_get "postal_code" d, kw_get "country" d with
      | Some (VUuid i), Some (VStr st), Some (VStr c),
        Some (VStr s), Some (VStr pc), Some (VStr co) =>
          Some (AddressBase.Build i st c s pc co)
      | _, _, _, _, _, _ => None
      end
  | _ => None
  end.

Fixpoint all_some {T} (l : list (option T)) : option (list T) :=
  match l with
  | [] => Some []
  | Some x :: l' =>
      match all_some l' with Some xs => Some (x :: xs) | None => None end
  | None :: _ => None
  end.

(** Modelled from the spec: validation of the [addresses] field, an
    ordered list of Address-shaped entries. *)
Definition as_address_list (v : Value) : option (list AddressBase.t) :=
  match v with
  | VList l => all_some (map as_address l)
  | _ => None
  end.

(** Modelled from the spec: the model call [AddressRead] of the missing
    [models/address.py] on the keyword arguments [kw]; like the models at
    hand, the two timestamps have [datetime.utcnow] as default factory. *)
Definition new_AddressRead (kw : kwargs) : M AddressRead.t :=
  id <- required "AddressRead" "id" as_uuid kw ;;
  street <- required "AddressRead" "street" as_str kw ;;
  city <- required "AddressRead" "city" as_str kw ;;
  state <- required "AddressRead" "state" as_str kw ;;
  postal_code <- required "AddressRead" "postal_code" as_str kw ;;
  country <- required "AddressRead" "country" as_str kw ;;
  created_at <-
    with_default_factory "AddressRead" "created_at" as_datetime utcnow kw ;;
  updated_at <-
    with_default_factory "AddressRead" "updated_at" as_datetime utcnow kw ;;
  ret (AddressRead.Build id street city state postal_code country
                         created_at updated_at).

(** Modelled from the spec: the model call [PersonRead] of the missing
    [models/person.py] on the keyword arguments [kw]; like [AccountRead],
    [id] has [uuid4] and the timestamps [datetime.utcnow] as default
    factory. *)
Definition new_PersonRead (kw : kwargs) : M PersonRead.t :=
  uni <- required "PersonRead" "uni" as_str kw ;;
  first_name <- required "PersonRead" "first_name" as_str kw ;;
  last_name <- required "PersonRead" "last_name" as_str kw ;;
  email <- required "PersonRead" "email" as_str kw ;;
  phone <- required "PersonRead" "phone" as_str kw ;;
  birth_date <- required "PersonRead" "birth_date" as_date kw ;;
  addresses <- required "PersonRead" "addresses" as_address_list kw ;;
  id <- with_default_factory "PersonRead" "id" as_uuid uuid4 kw ;;
  created_at <-
    with_default_factory "PersonRead" "created_at" as_datetime utcnow kw ;;
  updated_at <-
    with_default_factory "PersonRead" "updated_at" as_datetime utcnow kw ;;
  ret (PersonRead.Build uni first_name last_name email phone birth_date
                        addresses id created_at updated_at).

(** Attribute access on a [ClassRead] instance: the attributes are the
    declared fields, any other name raises [AttributeError]. *)
Definition ClassRead_getattr (c : ClassRead.t) (attr : string) : M Value :=
  match kw_get attr (ClassRead.model_dump c) with
  | Some v => ret v
  | None => raise (AttributeError "ClassRead" attr)
  end.

(** ** Text forms *)

Definition digits (n : nat) : string := NilZero.string_of_uint (Nat.to_uint n).

Fixpoint zeros (k : nat) : string :=
  match k with O => "" | S k' => String "0" (zeros k') end.

(** ["%0<width>d" % n] *)
Definition zero_padded (width n : nat) : string :=
  let s := digits n in zeros (width - String.length s) ++ s.

(** [str(d)] for a [datetime.date]: the ISO form [YYYY-MM-DD]. *)
Definition str_date (d : date) : string :=
  zero_padded 4 (year d) ++ "-" ++ zero_padded 2 (month d) ++ "-"
  ++ zero_padded 2 (day d).

(** ** main.py: the handlers *)

(** A list comprehension [[x for x in results if x.f == given]] guarded by
    [if given is not None]. *)
Definition where_given {A T} (given : option T) (keep : T -> A -> bool)
           (results : list A) : list A :=
  match given with
  | Some x => filter (keep x) results
  | None => results
  end.

(** The dictionaries of [main.py] are annotated [Dict[UUID, ...]] and are
    keyed by [UUID] here; a key of another type is outside the model. *)
Definition as_key (v : Value) : M UUID :=
  match v with
  | VUuid k => ret k
  | _ => raise (TypeError "dictionary key is not a UUID")
  end.

(** *** Address endpoints *)

Definition create_address (address : AddressBase.t) : M AddressRead.t :=
  present <- contains addresses_db (AddressBase.id address) ;;
  if present : bool
  then raise (HTTPException 400 "Address with this ID already exists")
  else
    address_read <- new_AddressRead (AddressBase.model_dump address) ;;
    setitem addresses_db (AddressBase.id address) address_read ;;
    getitem addresses_db (AddressBase.id address).

Definition list_addresses (street city state postal_code country : option string)
  : M (list AddressRead.t) :=
  results <- values addresses_db ;;
  let results :=
    where_given street (fun x a => String.eqb (AddressRead.street a) x) results in
  let results :=
    where_given city (fun x a => String.eqb (AddressRead.city a) x) results in
  let results :=
    where_given state (fun x a => String.eqb (AddressRead.state a) x) results in
  let results :=
    where_given postal_code
      (fun x a => String.eqb (AddressRead.postal_code a) x) results in
  let results :=
    where_given country (fun x a => String.eqb (AddressRead.country a) x) results in
  ret results.

Definition get_address (address_id : UUID) : M AddressRead.t :=
  present <- contains addresses_db address_id ;;
  if negb present
  then raise (HTTPException 404 "Address not found")
  else getitem addresses_db address_id.

Definition update_address (address_id : UUID) (update : AddressUpdate.t)
  : M AddressRead.t :=
  present <- contains addresses_db address_id ;;
  if negb present
  then raise (HTTPException 404 "Address not found")
  else
    current <- getitem addresses_db address_id ;;
    let stored := AddressRead.model_dump current in
    let stored :=
      kw_update stored (AddressUpdate.model_dump_exclude_unset update) in
    merged <- new_AddressRead stored ;;
    setitem addresses_db address_id merged ;;
    getitem addresses_db address_id.

(** *** Person endpoints *)

Definition create_person (person : PersonCreate.t) : M PersonRead.t :=
  person_read <- new_PersonRead (PersonCreate.model_dump person) ;;
  setitem persons_db (PersonRead.id person_read) person_read ;;
  ret person_read.

Definition list_persons
           (uni first_name last_name email phone birth_date city country
            : option string)
  : M (list PersonRead.t) :=
  results <- values persons_db ;;
  let results :=
    where_given uni (fun x p => String.eqb (PersonRead.uni p) x) results in
  let results :=
    where_given first_name
      (fun x p => String.eqb (PersonRead.first_name p) x) results in
  let results :=
    where_given last_name
      (fun x p => String.eqb (PersonRead.last_name p) x) results in
  let results :=
    where_given email (fun x p => String.eqb (PersonRead.email p) x) results in
  let results :=
    where_given phone (fun x p => String.eqb (PersonRead.phone p) x) results in
  let results :=
    where_given birth_date
      (fun x p => String.eqb (str_date (PersonRead.birth_date p)) x) results in
  let results :=
    where_given city
      (fun x p =>
         existsb (fun addr => String.eqb (AddressBase.city addr) x)
                 (PersonRead.addresses p))
      results in
  let results :=
    where_given country
      (fun x p =>
         existsb (fun addr => String.eqb (AddressBase.country addr) x)
                 (PersonRead.addresses p))
      results in
  ret results.

Definition get_person (person_id : UUID) : M PersonRead.t :=
  present <- contains persons_db person_id ;;
  if negb present
  then raise (HTTPException 404 "Person not found")
  else getitem persons_db person_id.

Definition update_person (person_id : UUID) (update : PersonUpdate.t)
  : M PersonRead.t :=
  present <- contains persons_db person_id ;;
  if negb present
  then raise (HTTPException 404 "Person not found")
  else
    current <- getitem persons_db person_id ;;
    let stored := PersonRead.model_dump current in
    let stored :=
      kw_update stored (PersonUpdate.model_dump_exclude_unset update) in
    merged <- new_PersonRead stored ;;
    setitem persons_db person_id merged ;;
    getitem persons_db person_id.

(** *** Class endpoints *)

Definition create_class (cls : ClassCreate.t) : M ClassRead.t :=
  class_read <- new_ClassRead (ClassCreate.model_dump cls) ;;
  key <- (v <- ClassRead_getattr class_read "id" ;; as_key v) ;;
  setitem classes_db key class_read ;;
  ret class_read.

(** [c.description == description] with an [Optional[str]] on the left. *)
Definition optional_str_eq (o : option string) (s : string) : bool :=
  match o with Some x => String.eqb x s | None => false end.

Definition list_classes (name description : option string)
  : M (list ClassRead.t) :=
  results <- values classes_db ;;
  let results :=
    where_given name (fun x c => String.eqb (ClassRead.name c) x) results in
  let results :=
    where_given description
      (fun x c => optional_str_eq (ClassRead.description c) x) results in
  ret results.

Definition get_class (class_id : UUID) : M ClassRead.t :=
  present <- contains classes_db class_id ;;
  if negb present
  then raise (HTTPException 404 "Class not found")
  else getitem classes_db class_id.

Definition update_class (class_id : UUID) (update : ClassUpdate.t)
  : M ClassRead.t :=
  present <- contains classes_db class_id ;;
  if negb present
  then raise (HTTPException 404 "Class not found")
  else
    current <- getitem classes_db class_id ;;
    let stored := ClassRead.model_dump current in
    let stored :=
      kw_update stored (ClassUpdate.model_dump_exclude_unset update) in
    merged <- new_ClassRead stored ;;
    setitem classes_db class_id merged ;;
    getitem classes_db class_id.

(** *** Account endpoints *)

Definition create_account (account : AccountCreate.t) : M AccountRead.t :=
  account_read <- new_AccountRead (AccountCreate.model_dump account) ;;
  setitem accounts_db (AccountRead.id account_read) account_read ;;
  ret account_read.

Definition list_accounts (username : option string) (number_id : option Z)
           (amount : option float)
  : M (list AccountRead.t) :=
  results <- values accounts_db ;;
  let results :=
    where_given username
      (fun x a => String.eqb (AccountRead.username a) x) results in
  let results :=
    where_given number_id
      (fun x a => Z.eqb (AccountRead.number_id a) x) results in
  let results :=
    where_given amount
      (fun x a => float_eq (AccountRead.amount a) x) results in
  ret results.

Definition get_account (account_id : UUID) : M AccountRead.t :=
  present <- contains accounts_db account_id ;;
  if negb present
  then raise (HTTPException 404 "Account not found")
  else getitem accounts_db account_id.

Definition update_account (account_id : UUID) (update : AccountUpdate.t)
  : M AccountRead.t :=
  present <- contains accounts_db account_id ;;
  if negb present
  then raise (HTTPException 404 "Account not found")
  else
    current <- getitem accounts_db account_id ;;
    let stored := AccountRead.model_dump current in
    let stored :=
      kw_update stored (AccountUpdate.model_dump_exclude_unset update) in
    merged <- new_AccountRead stored ;;
    setitem accounts_db account_id merged ;;
    getitem accounts_db account_id.

(** ** The filter evaluator, as the specification words it

    Each query parameter is either unset or "equals X"; the supplied ones
    are collected as predicates and a record is kept when every one of them
    holds.  [spec_list] is written from the specification, to be compared
    with the chains of comprehensions of the [list_*] handlers. *)

Definition supplied {A T} (given : option T) (keep : T -> A -> bool)
  : list (A -> bool) :=
  match given with
  | Some x => [keep x]
  | None => []
  end.

Definition spec_list {A} (predicates : list (A -> bool)) (scan : list A)
  : list A :=
  filter (fun a => forallb (fun p => p a) predicates) scan.

(** ** Running a handler *)

(** What a run of a handler returns and the world it leaves. *)
Definition result_of {A} (c : M A) (w : World) : Result A := fst (c w).
Definition world_after {A} (c : M A) (w : World) : World := snd (c w).

(** What the merge keeps for one field: the payload's value when the
    field was supplied, the stored value otherwise.  [None] is a supplied
    null. *)
Definition overlay {T} (is_set : bool) (given : option T) (stored : T)
  : option T :=
  if is_set then given else Some stored.

(** ** Sample data

    A freshly started service: empty stores, a clock that advances by one
    microsecond per reading from [1000], identifiers drawn from [7] on. *)
Definition fresh_world : World :=
  mkWorld [] [] [] []
          (fun k => (1000 + Z.of_nat k)%Z) 0
          (fun k => (7 + N.of_nat k)%N) 0.

(** The binary64 values [10.0] and [20.0]. *)
Definition float_10 : float := S754_finite false 5629499534213120 (-49).
Definition float_20 : float := S754_finite false 5629499534213120 (-48).

(** The request body [{username: "alice", number_id: 1, amount: 10.0}]. *)
Definition alice : AccountCreate.t := AccountCreate.Build "alice" 1 float_10.

(** The service after [POST /accounts] with [alice]. *)
Definition world_with_alice : World :=
  world_after (create_account alice) fresh_world.

(** The request body [{name: "Mathematics 101", description: ...}]. *)
Definition mathematics_101 : ClassCreate.t :=
  ClassCreate.Build "Mathematics 101"
                    (Some "An introductory course to Mathematics.").

(** A store state holding one class under the key [3]. *)
Definition world_with_a_class : World :=
  set_classes
    [(3%N, ClassRead.Build "Mathematics 101"
                           (Some "An introductory course to Mathematics.")
                           1000%Z 1001%Z)]
    fresh_world.

(** A person with two embedded addresses, in New York and in Boston. *)
Definition nyc : AddressBase.t :=
  AddressBase.Build 21%N "116th St" "NYC" "NY" "10027" "USA".
Definition boston : AddressBase.t :=
  AddressBase.Build 22%N "1 Main St" "Boston" "MA" "02108" "USA".
Definition ada : PersonCreate.t :=
  PersonCreate.Build "al1815" "Ada" "Lovelace" "ada@example.com" "555-0100"
                     (mkDate 2000 1 5) [nyc; boston].

(** The service after [POST /persons] with [ada]. *)
Definition world_with_ada : World :=
  world_after (create_person ada) fresh_world.

(** The request body [{amount: 20.0}]. *)
Definition patch_amount : AccountUpdate.t :=
  AccountUpdate.Build None None (Some float_20) ["amount"].

(** The request body [{}]. *)
Definition patch_nothing : AccountUpdate.t :=
  AccountUpdate.Build None None None [].

(** The request body [{username: null}]. *)
Definition patch_null_username : AccountUpdate.t :=
  AccountUpdate.Build None None None ["username"].

(** The request body [{description: null}]. *)
Definition patch_null_description : ClassUpdate.t :=
  ClassUpdate.Build None None ["description"].

(** ** The route table

    The resource routes that [main.py] registers on [app], one constructor
    per decorated handler, with the path and query parameters the handler
    takes.  Requests are served one after the other. *)
Inductive Request : Type :=
| POST_addresses (address : AddressBase.t)
| GET_addresses (street city state postal_code country : option string)
| GET_address (address_id : UUID)
| PATCH_address (address_id : UUID) (update : AddressUpdate.t)
| POST_persons (person : PersonCreate.t)
| GET_persons (uni first_name last_name email phone birth_date city country
               : option string)
| GET_person (person_id : UUID)
| PATCH_person (person_id : UUID) (update : PersonUpdate.t)
| POST_classes (cls : ClassCreate.t)
| GET_classes (name description : option string)
| GET_class (class_id : UUID)
| PATCH_class (class_id : UUID) (update : ClassUpdate.t)
| POST_accounts (account : AccountCreate.t)
| GET_accounts (username : option string) (number_id : option Z)
               (amount : option float)
| GET_account (account_id : UUID)
| PATCH_account (account_id : UUID) (update : AccountUpdate.t).

(** The world after serving one request, whatever the response. *)
Definition serve (req : Request) (w : World) : World :=
  match req with
  | POST_addresses a => world_after (create_address a) w
  | GET_addresses st c s pc co => world_after (list_addresses st c s pc co) w
  | GET_address i => world_after (get_address i) w
  | PATCH_address i u => world_after (update_address i u) w
  | POST_persons p => world_after (create_person p) w
  | GET_persons u f l e ph b c co =>
      world_after (list_persons u f l e ph b c co) w
  | GET_person i => world_after (get_person i) w
  | PATCH_person i u => world_after (update_person i u) w
  | POST_classes c => world_after (create_class c) w
  | GET_classes n d => world_after (list_classes n d) w
  | GET_class i => world_after (get_class i) w
  | PATCH_class i u => world_after (update_class i u) w
  | POST_accounts a => world_after (create_account a) w
  | GET_accounts u n a => world_after (list_accounts u n a) w
  | GET_account i => world_after (get_account i) w
  | PATCH_account i u => world_after (update_account i u) w
  end.

(** The world after serving a sequence of requests in order. *)
Definition serve_all (reqs : list Request) (w : World) : World :=
  fold_left (fun w req => serve req w) reqs w.

(** The state of the module when the process starts: the four
    dictionaries are empty. *)
Definition just_started (w : World) : Prop :=
  persons w = [] /\ addresses w = [] /\ classes w = [] /\ accounts w = [].

(** A dictionary whose keys are distinct and in which every record is
    stored under its own identifier. *)
Definition keyed_by_id {V} (ident : V -> UUID) (d : Dict V) : Prop :=
  NoDup (dict_keys d) /\ forall k r, In (k, r) d -> ident r = k.

(** The three identified stores are well keyed. *)
Definition stores_keyed_by_id (w : World) : Prop :=
  keyed_by_id AccountRead.id (accounts w)
  /\ keyed_by_id PersonRead.id (persons w)
  /\ keyed_by_id AddressRead.id (addresses w).

(** A service whose identifier source always returns [7]. *)
Definition world_with_stuck_uuid : World :=
  mkWorld [] [] [] []
          (fun k => (1000 + Z.of_nat k)%Z) 0
          (fun _ => 7%N) 0.

(** Membership of a literal in a literal list. *)
Ltac in_list := simpl; repeat (first [left; reflexivity | right]).

(** * Properties *)

(** ** Dictionaries *)

Section DictFacts.
Variable V : Type.
Implicit Types (d : Dict V) (k : UUID) (v : V).

Lemma dict_get_contains k d :
  dict_contains k d = true <-> exists v, dict_get k d = Some v.
Proof.
  induction d as [|[k' v'] d IH]; simpl.
  - split; [discriminate | intros [v Hv]; discriminate].
  - destruct (N.eqb k k'); simpl.
    + split; [eauto | reflexivity].
    + exact IH.
Qed.

Lemma dict_get_absent k d :
  dict_contains k d = false -> dict_get k d = None.
Proof.
  intros H. destruct (dict_get k d) as [v|] eqn:E; [|reflexivity].
  assert (dict_contains k d = true) by (apply dict_get_contains; eauto).
  congruence.
Qed.

Lemma dict_get_set_same k v d : dict_get k (dict_set k v d) = Some v.
Proof.
  induction d as [|[k' v'] d IH]; simpl.
  - now rewrite N.eqb_refl.
  - destruct (N.eqb k k') eqn:E; simpl; rewrite E; auto.
Qed.

Lemma dict_get_set_other k k' v d :
  k' <> k -> dict_get k' (dict_set k v d) = dict_get k' d.
Proof.
  intros Hne. induction d as [|[k0 v0] d IH]; simpl.
  - destruct (N.eqb_spec k' k); [contradiction | reflexivity].
  - destruct (N.eqb_spec k k0) as [->|Hk]; simpl.
    + destruct (N.eqb_spec k' k0); [contradiction | reflexivity].
    + destruct (N.eqb k' k0); auto.
Qed.

(** Assigning to a key already present keeps every key where it is. *)
Lemma dict_keys_set_present k v d :
  dict_contains k d = true -> dict_keys (dict_set k v d) = dict_keys d.
Proof.
  induction d as [|[k0 v0] d IH]; simpl; [discriminate|].
  destruct (N.eqb k k0); simpl; intros H; [reflexivity|].
  now rewrite IH.
Qed.

(** Assigning to a new key appends the entry. *)
Lemma dict_set_fresh k v d :
  dict_contains k d = false -> dict_set k v d = (d ++ [(k, v)])%list.
Proof.
  induction d as [|[k0 v0] d IH]; simpl; [reflexivity|].
  destruct (N.eqb k k0); simpl; intros H; [discriminate|].
  now rewrite IH.
Qed.

Lemma dict_values_set_fresh k v d :
  dict_contains k d = false ->
  dict_values (dict_set k v d) = (dict_values d ++ [v])%list.
Proof.
  intros H. rewrite (dict_set_fresh _ _ _ H).
  unfold dict_values. now rewrite map_app.
Qed.
End DictFacts.

(** ** Filtering *)

Lemma filter_filter {A} (f g : A -> bool) (l : list A) :
  filter g (filter f l) = filter (fun a => f a && g a) l.
Proof.
  induction l as [|a l IH]; simpl; [reflexivity|].
  destruct (f a); simpl; [destruct (g a)|]; now rewrite IH.
Qed.

Lemma spec_list_nil {A} (scan : list A) : spec_list [] scan = scan.
Proof.
  unfold spec_list. simpl. induction scan as [|a l IH]; simpl; congruence.
Qed.

(** One guarded comprehension of a handler discharges the first group of
    supplied predicates. *)
Lemma spec_list_where_given {A T} (given : option T) (keep : T -> A -> bool)
      (rest : list (A -> bool)) (scan : list A) :
  spec_list (supplied given keep ++ rest)%list scan
  = spec_list rest (where_given given keep scan).
Proof.
  unfold spec_list. destruct given as [x|]; simpl; [|reflexivity].
  now rewrite filter_filter.
Qed.

Lemma spec_list_In {A} (predicates : list (A -> bool)) (scan : list A) a :
  In a (spec_list predicates scan)
  <-> In a scan /\ forall p, In p predicates -> p a = true.
Proof.
  unfold spec_list. rewrite filter_In, forallb_forall. tauto.
Qed.

Lemma where_given_In {A T} (given : option T) (keep : T -> A -> bool)
      (results : list A) a :
  In a (where_given given keep results)
  <-> In a results /\ forall x, given = Some x -> keep x a = true.
Proof.
  destruct given as [x|]; simpl.
  - rewrite filter_In. split.
    + intros [Hin Hk]. split; [assumption|]. now intros y [= <-].
    + intros [Hin Hk]. split; [assumption|]. now apply Hk.
  - split; [intros Hin; split; [assumption | discriminate] | tauto].
Qed.

Lemma any_address_iff (field : AddressBase.t -> string) (x : string)
      (l : list AddressBase.t) :
  existsb (fun addr => String.eqb (field addr) x) l = true
  <-> exists addr, In addr l /\ field addr = x.
Proof.
  rewrite existsb_exists.
  split; intros [addr [Hin H]]; exists addr; split; try assumption;
    now apply String.eqb_eq.
Qed.

(** ** The list handlers *)

Lemma list_persons_run uni first_name last_name email phone birth_date
      city country w :
  list_persons uni first_name last_name email phone birth_date city country w
  = (Ok (where_given country
           (fun x p =>
              existsb (fun addr => String.eqb (AddressBase.country addr) x)
                      (PersonRead.addresses p))
        (where_given city
           (fun x p =>
              existsb (fun addr => String.eqb (AddressBase.city addr) x)
                      (PersonRead.addresses p))
        (where_given birth_date
           (fun x p => String.eqb (str_date (PersonRead.birth_date p)) x)
        (where_given phone (fun x p => String.eqb (PersonRead.phone p) x)
        (where_given email (fun x p => String.eqb (PersonRead.email p) x)
        (where_given last_name
           (fun x p => String.eqb (PersonRead.last_name p) x)
        (where_given first_name
           (fun x p => String.eqb (PersonRead.first_name p) x)
        (where_given uni (fun x p => String.eqb (PersonRead.uni p) x)
           (dict_values (persons w)))))))))),
     w).
Proof. reflexivity. Qed.

(** Membership in the answer of [list_persons], predicate by predicate. *)
Lemma list_persons_In uni first_name last_name email phone birth_date
      city country w p :
  (exists l,
     list_persons uni first_name last_name email phone birth_date city country w
     = (Ok l, w) /\ In p l)
  <-> In p (dict_values (persons w))
      /\ (forall x, uni = Some x -> PersonRead.uni p = x)
      /\ (forall x, first_name = Some x -> PersonRead.first_name p = x)
      /\ (forall x, last_name = Some x -> PersonRead.last_name p = x)
      /\ (forall x, email = Some x -> PersonRead.email p = x)
      /\ (forall x, phone = Some x -> PersonRead.phone p = x)
      /\ (forall x, birth_date = Some x ->
                    str_date (PersonRead.birth_date p) = x)
      /\ (forall x, city = Some x ->
            exists addr, In addr (PersonRead.addresses p)
                         /\ AddressBase.city addr = x)
      /\ (forall x, country = Some x ->
            exists addr, In addr (PersonRead.addresses p)
                         /\ AddressBase.country addr = x).
Proof.
  rewrite list_persons_run.
  split.
  - intros [l [[= <-] Hin]].
    repeat (apply where_given_In in Hin; destruct Hin as [Hin ?]).
    repeat split; try assumption; intros x Hx;
      try (apply String.eqb_eq; auto; fail);
      apply any_address_iff; auto.
  - intros (Hin & H1 & H2 & H3 & H4 & H5 & H6 & H7 & H8).
    eexists; split; [reflexivity|].
    repeat (apply where_given_In; split);
      try assumption; intros x Hx;
      try (apply String.eqb_eq; auto; fail);
      apply any_address_iff; auto.
Qed.

(** C5.  For every state of the store and every combination of optional
    equality predicates, a list operation returns exactly the records of
    the full scan (the stored records in insertion order) for which every
    supplied predicate's field equals the given value, all supplied
    predicates being taken together; with no predicate supplied the answer
    is the full scan.  Stated for the accounts, classes and addresses
    collections; equality is Python's [==] on the field's type. *)
Theorem list_is_conjunction_of_supplied_predicates (w : World) :
  (forall username number_id amount,
      list_accounts username number_id amount w
      = (Ok (spec_list
               (supplied username
                         (fun x a => String.eqb (AccountRead.username a) x)
                ++ supplied number_id
                            (fun x a => Z.eqb (AccountRead.number_id a) x)
                ++ supplied amount
                            (fun x a => float_eq (AccountRead.amount a) x))
               (dict_values (accounts w))),
         w))
  /\ list_accounts None None None w = (Ok (dict_values (accounts w)), w)
  /\ (forall name description,
         list_classes name description w
         = (Ok (spec_list
                  (supplied name (fun x c => String.eqb (ClassRead.name c) x)
                   ++ supplied description
                        (fun x c => optional_str_eq (ClassRead.description c) x))
                  (dict_values (classes w))),
            w))
  /\ list_classes None None w = (Ok (dict_values (classes w)), w)
  /\ (forall street city state postal_code country,
         list_addresses street city state postal_code country w
         = (Ok (spec_list
                  (supplied street
                            (fun x a => String.eqb (AddressRead.street a) x)
                   ++ supplied city
                               (fun x a => String.eqb (AddressRead.city a) x)
                   ++ supplied state
                               (fun x a => String.eqb (AddressRead.state a) x)
                   ++ supplied postal_code
                        (fun x a => String.eqb (AddressRead.postal_code a) x)
                   ++ supplied country
                        (fun x a => String.eqb (AddressRead.country a) x))
                  (dict_values (addresses w))),
            w))
  /\ list_addresses None None None None None w
     = (Ok (dict_values (addresses w)), w).
Proof.
  repeat split; intros;
    rewrite ?spec_list_where_given;
    try (rewrite <- (app_nil_r (supplied _ _)), spec_list_where_given,
           spec_list_nil);
    reflexivity.
Qed.

(** Membership in the answer of [list_accounts]: the supplied text and
    integer predicates are equalities of values, the amount predicate is
    the floating-point comparison. *)
Lemma list_accounts_In username number_id amount w a :
  (exists l, list_accounts username number_id amount w = (Ok l, w) /\ In a l)
  <-> In a (dict_values (accounts w))
      /\ (forall x, username = Some x -> AccountRead.username a = x)
      /\ (forall x, number_id = Some x -> AccountRead.number_id a = x)
      /\ (forall x, amount = Some x -> float_eq (AccountRead.amount a) x = true).
Proof.
  change (list_accounts username number_id amount w)
    with (Ok (where_given amount
                (fun x a => float_eq (AccountRead.amount a) x)
             (where_given number_id
                (fun x a => Z.eqb (AccountRead.number_id a) x)
             (where_given username
                (fun x a => String.eqb (AccountRead.username a) x)
                (dict_values (accounts w))))), w).
  split.
  - intros [l [[= <-] Hin]].
    repeat (apply where_given_In in Hin; destruct Hin as [Hin ?]).
    repeat split; try assumption; intros x Hx.
    + apply String.eqb_eq; auto.
    + apply Z.eqb_eq; auto.
  - intros (Hin & H1 & H2 & H3).
    eexists; split; [reflexivity|].
    repeat (apply where_given_In; split); try assumption; intros x Hx.
    + apply String.eqb_eq; auto.
    + apply Z.eqb_eq; auto.
Qed.

(** A stored NaN amount is matched by no amount filter, not even NaN. *)
Lemma nan_amount_matches_nothing (x : float) : float_eq S754_nan x = false.
Proof. reflexivity. Qed.

(** What [list_persons] answers, person by person, against the store. *)
Lemma list_persons_answer uni first_name last_name email phone birth_date
      city country w :
  exists answer,
    list_persons uni first_name last_name email phone birth_date city country w
    = (Ok answer, w)
    /\ forall p,
        In p answer
        <-> In p (dict_values (persons w))
            /\ (forall x, uni = Some x -> PersonRead.uni p = x)
            /\ (forall x, first_name = Some x -> PersonRead.first_name p = x)
            /\ (forall x, last_name = Some x -> PersonRead.last_name p = x)
            /\ (forall x, email = Some x -> PersonRead.email p = x)
            /\ (forall x, phone = Some x -> PersonRead.phone p = x)
            /\ (forall x, birth_date = Some x ->
                          str_date (PersonRead.birth_date p) = x)
            /\ (forall x, city = Some x ->
                  exists addr, In addr (PersonRead.addresses p)
                               /\ AddressBase.city addr = x)
            /\ (forall x, country = Some x ->
                  exists addr, In addr (PersonRead.addresses p)
                               /\ AddressBase.country addr = x).
Proof.
  eexists. split; [apply list_persons_run|].
  intros p. split.
  - intros Hin.
    apply (list_persons_In uni first_name last_name email phone birth_date
                           city country w p).
    eexists. split; [apply list_persons_run | exact Hin].
  - intros H.
    apply (list_persons_In uni first_name last_name email phone birth_date
                           city country w p) in H.
    destruct H as (l & Hrun & Hin).
    rewrite list_persons_run in Hrun. injection Hrun as <-. exact Hin.
Qed.

(** C6.  For every Person of the store and every supplied [city] or
    [country] filter value, the Person passes that filter exactly when at
    least one entry of its embedded address list has the given value in
    the corresponding field.  With the [city] filter alone, and with the
    [country] filter alone, the answer of [list_persons] holds exactly the
    stored persons having such an entry; with other filters supplied as
    well, it holds exactly the stored persons that satisfy those and have
    such an entry for each of [city] and [country] that is supplied. *)
Theorem nested_address_filter_is_existential
        (w : World) (uni first_name last_name email phone birth_date
                     city country : option string) :
  (forall x,
      exists answer,
        list_persons None None None None None None (Some x) None w
        = (Ok answer, w)
        /\ forall p,
            In p answer
            <-> In p (dict_values (persons w))
                /\ exists addr, In addr (PersonRead.addresses p)
                                /\ AddressBase.city addr = x)
  /\ (forall x,
         exists answer,
           list_persons None None None None None None None (Some x) w
           = (Ok answer, w)
           /\ forall p,
               In p answer
               <-> In p (dict_values (persons w))
                   /\ exists addr, In addr (PersonRead.addresses p)
                                   /\ AddressBase.country addr = x)
  /\ exists answer,
      list_persons uni first_name last_name email phone birth_date
                   city country w
      = (Ok answer, w)
      /\ forall p,
          In p answer
          <-> In p (dict_values (persons w))
              /\ (forall x, uni = Some x -> PersonRead.uni p = x)
              /\ (forall x, first_name = Some x ->
                            PersonRead.first_name p = x)
              /\ (forall x, last_name = Some x -> PersonRead.last_name p = x)
              /\ (forall x, email = Some x -> PersonRead.email p = x)
              /\ (forall x, phone = Some x -> PersonRead.phone p = x)
              /\ (forall x, birth_date = Some x ->
                            str_date (PersonRead.birth_date p) = x)
              /\ (forall x, city = Some x ->
                    exists addr, In addr (PersonRead.addresses p)
                                 /\ AddressBase.city addr = x)
              /\ (forall x, country = Some x ->
                    exists addr, In addr (PersonRead.addresses p)
                                 /\ AddressBase.country addr = x).
Proof.
  split; [|split].
  - intros x. eexists. split; [apply list_persons_run|].
    intros p. cbn [where_given]. rewrite filter_In.
    now rewrite (any_address_iff AddressBase.city).
  - intros x. eexists. split; [apply list_persons_run|].
    intros p. cbn [where_given]. rewrite filter_In.
    now rewrite (any_address_iff AddressBase.country).
  - apply list_persons_answer.
Qed.

(** C7.  For every Person of the store and every supplied [birth_date]
    filter string, the Person passes the filter exactly when the text form
    [str] of its stored birth date is that very string.  With the
    [birth_date] filter alone the answer of [list_persons] holds exactly
    the stored persons whose birth date has that text form; with other
    filters supplied as well, it holds exactly the stored persons that
    satisfy those and whose birth date has that text form. *)
Theorem birth_date_filter_compares_text
        (w : World) (uni first_name last_name email phone birth_date
                     city country : option string) :
  (forall text,
      exists answer,
        list_persons None None None None None (Some text) None None w
        = (Ok answer, w)
        /\ forall p,
            In p answer
            <-> In p (dict_values (persons w))
                /\ str_date (PersonRead.birth_date p) = text)
  /\ exists answer,
      list_persons uni first_name last_name email phone birth_date
                   city country w
      = (Ok answer, w)
      /\ forall p,
          In p answer
          <-> In p (dict_values (persons w))
              /\ (forall text, birth_date = Some text ->
                               str_date (PersonRead.birth_date p) = text)
              /\ (forall x, uni = Some x -> PersonRead.uni p = x)
              /\ (forall x, first_name = Some x ->
                            PersonRead.first_name p = x)
              /\ (forall x, last_name = Some x -> PersonRead.last_name p = x)
              /\ (forall x, email = Some x -> PersonRead.email p = x)
              /\ (forall x, phone = Some x -> PersonRead.phone p = x)
              /\ (forall x, city = Some x ->
                    exists addr, In addr (PersonRead.addresses p)
                                 /\ AddressBase.city addr = x)
              /\ (forall x, country = Some x ->
                    exists addr, In addr (PersonRead.addresses p)
                                 /\ AddressBase.country addr = x).
Proof.
  split.
  - intros text. eexists. split; [apply list_persons_run|].
    intros p. cbn [where_given]. rewrite filter_In.
    now rewrite String.eqb_eq.
  - destruct (list_persons_answer uni first_name last_name email phone
                                  birth_date city country w)
      as (answer & Hrun & Hanswer).
    exists answer. split; [exact Hrun|].
    intros p. rewrite Hanswer. tauto.
Qed.

(** C10.  Every list operation is read-only: whatever filter values are
    supplied, the world after the call is the world before it, so each
    store holds the same records under the same keys in the same order. *)
Theorem list_operations_leave_the_world_unchanged (w : World) :
  (forall username number_id amount,
      world_after (list_accounts username number_id amount) w = w)
  /\ (forall name description,
         world_after (list_classes name description) w = w)
  /\ (forall street city state postal_code country,
         world_after (list_addresses street city state postal_code country) w
         = w)
  /\ (forall uni first_name last_name email phone birth_date city country,
         world_after (list_persons uni first_name last_name email phone
                                   birth_date city country) w
         = w).
Proof. repeat split. Qed.

(** ** Lookup and PATCH of an absent identity *)

(** C8.  For every state and every identity absent from a store, the
    point lookup and the PATCH on that store raise the 404 "not found"
    error and leave the world exactly as it was: no entry is created for
    the missing identity. *)
Theorem absent_identity_is_not_found (w : World) (missing : UUID) :
  (dict_contains missing (accounts w) = false ->
   get_account missing w
   = (Raise (HTTPException 404 "Account not found"), w)
   /\ forall update,
       update_account missing update w
       = (Raise (HTTPException 404 "Account not found"), w))
  /\ (dict_contains missing (classes w) = false ->
      get_class missing w
      = (Raise (HTTPException 404 "Class not found"), w)
      /\ forall update,
          update_class missing update w
          = (Raise (HTTPException 404 "Class not found"), w))
  /\ (dict_contains missing (addresses w) = false ->
      get_address missing w
      = (Raise (HTTPException 404 "Address not found"), w)
      /\ forall update,
          update_address missing update w
          = (Raise (HTTPException 404 "Address not found"), w))
  /\ (dict_contains missing (persons w) = false ->
      get_person missing w
      = (Raise (HTTPException 404 "Person not found"), w)
      /\ forall update,
          update_person missing update w
          = (Raise (HTTPException 404 "Person not found"), w)).
Proof.
  repeat split; intros;
    unfold get_account, update_account, get_class, update_class,
      get_address, update_address, get_person, update_person,
      bind, contains; simpl;
    match goal with H : dict_contains _ _ = false |- _ => rewrite H end;
    reflexivity.
Qed.

(** The identity [8] is absent from every store of [world_with_alice]. *)
Lemma absent_identity_is_not_found_witness :
  get_account 8%N world_with_alice
  = (Raise (HTTPException 404 "Account not found"), world_with_alice)
  /\ update_account 8%N (AccountUpdate.Build None None (Some float_20)
                                              ["amount"])
                    world_with_alice
     = (Raise (HTTPException 404 "Account not found"), world_with_alice)
  /\ get_class 8%N world_with_alice
     = (Raise (HTTPException 404 "Class not found"), world_with_alice)
  /\ get_address 8%N world_with_alice
     = (Raise (HTTPException 404 "Address not found"), world_with_alice)
  /\ get_person 8%N world_with_alice
     = (Raise (HTTPException 404 "Person not found"), world_with_alice).
Proof.
  destruct (absent_identity_is_not_found world_with_alice 8%N)
    as (Hacc & Hcls & Haddr & Hper).
  destruct (Hacc eq_refl) as [Hget Hpatch].
  exact (conj Hget
          (conj (Hpatch _)
             (conj (proj1 (Hcls eq_refl))
                (conj (proj1 (Haddr eq_refl)) (proj1 (Hper eq_refl)))))).
Defined.

(** ** Creating a class *)

(** [ClassRead] has no [id] attribute, so the handler never reaches the
    assignment into [classes]. *)
Lemma create_class_always_raises (cls : ClassCreate.t) (w : World) :
  result_of (create_class cls) w = Raise (AttributeError "ClassRead" "id")
  /\ classes (world_after (create_class cls) w) = classes w.
Proof.
  destruct cls as [name [description|]]; split; reflexivity.
Qed.

(** C2, at the request body [mathematics_101] on a freshly started
    service: [create_class] does not succeed; reading [class_read.id]
    raises [AttributeError] and the classes store stays empty. *)
Theorem create_class_fails_on_mathematics_101 :
  result_of (create_class mathematics_101) fresh_world
  = Raise (AttributeError "ClassRead" "id")
  /\ classes (world_after (create_class mathematics_101) fresh_world) = [].
Proof. split; reflexivity. Qed.

(** No sequence of requests can populate [classes]: the only handler that
    assigns a new key is [create_class]. *)
Lemma update_class_on_empty_store (class_id : UUID) (update : ClassUpdate.t)
      (w : World) :
  classes w = [] ->
  update_class class_id update w
  = (Raise (HTTPException 404 "Class not found"), w).
Proof.
  intros H. unfold update_class, bind, contains. simpl. now rewrite H.
Qed.

(** ** Creating an account *)

(** [create_account] draws one identifier and reads the clock twice, once
    for each timestamp field, in the order the fields are declared. *)
Lemma create_account_run (account : AccountCreate.t) (w : World) :
  let r := AccountRead.Build (AccountCreate.username account)
                             (AccountCreate.number_id account)
                             (AccountCreate.amount account)
                             (uuid_source w (uuid_draws w))
                             (clock w (clock_reads w))
                             (clock w (S (clock_reads w))) in
  create_account account w
  = (Ok r,
     mkWorld (persons w) (addresses w) (classes w)
             (dict_set (AccountRead.id r) r (accounts w))
             (clock w) (S (S (clock_reads w)))
             (uuid_source w) (S (uuid_draws w))).
Proof. destruct account; reflexivity. Qed.




(** ** PATCH: the partial-update merge *)

(** The model call on the merged dictionary of [update_account]: the
    identity and both timestamps come from the stored record, no clock is
    read and no identifier drawn; a supplied null is refused by the
    non-optional field it lands on. *)
Lemma new_AccountRead_merged (old : AccountRead.t) (u : AccountUpdate.t)
      (w : World) :
  new_AccountRead
    (kw_update (AccountRead.model_dump old)
               (AccountUpdate.model_dump_exclude_unset u)) w
  = match overlay (AccountUpdate.is_set "username" u)
                  (AccountUpdate.username u) (AccountRead.username old),
          overlay (AccountUpdate.is_set "number_id" u)
                  (AccountUpdate.number_id u) (AccountRead.number_id old),
          overlay (AccountUpdate.is_set "amount" u)
                  (AccountUpdate.amount u) (AccountRead.amount old) with
    | Some username, Some number_id, Some amount =>
        (Ok (AccountRead.Build username number_id amount
                               (AccountRead.id old)
                               (AccountRead.created_at old)
                               (AccountRead.updated_at old)), w)
    | None, _, _ => (Raise (ValidationError "AccountRead" "username"), w)
    | Some _, None, _ => (Raise (ValidationError "AccountRead" "number_id"), w)
    | Some _, Some _, None => (Raise (ValidationError "AccountRead" "amount"), w)
    end.
Proof.
  unfold AccountUpdate.model_dump_exclude_unset, overlay. simpl.
  destruct (AccountUpdate.is_set "username" u),
           (AccountUpdate.is_set "number_id" u),
           (AccountUpdate.is_set "amount" u);
    destruct (AccountUpdate.username u), (AccountUpdate.number_id u),
             (AccountUpdate.amount u);
    reflexivity.
Qed.

(** A run of [update_account] on a stored identity: the merged record
    replaces the stored one under the same key, or the model call fails
    and nothing is written. *)
Lemma update_account_run (account_id : UUID) (u : AccountUpdate.t)
      (w : World) (old : AccountRead.t) :
  dict_get account_id (accounts w) = Some old ->
  update_account account_id u w
  = match new_AccountRead
            (kw_update (AccountRead.model_dump old)
                       (AccountUpdate.model_dump_exclude_unset u)) w with
    | (Ok r, _) =>
        (Ok r, set_accounts (dict_set account_id r (accounts w)) w)
    | (Raise e, _) => (Raise e, w)
    end.
Proof.
  intros Hget.
  assert (Hin : dict_contains account_id (accounts w) = true)
    by (apply dict_get_contains; eauto).
  unfold update_account, bind, contains, getitem.
  cbn [load accounts_db negb]. rewrite Hin. cbn [negb]. rewrite Hget.
  rewrite new_AccountRead_merged.
  destruct (overlay (AccountUpdate.is_set "username" u)
                    (AccountUpdate.username u) (AccountRead.username old)),
           (overlay (AccountUpdate.is_set "number_id" u)
                    (AccountUpdate.number_id u) (AccountRead.number_id old)),
           (overlay (AccountUpdate.is_set "amount" u)
                    (AccountUpdate.amount u) (AccountRead.amount old));
    try reflexivity.
  unfold setitem. cbn [load save accounts_db accounts set_accounts].
  now rewrite dict_get_set_same.
Qed.

(** A successful [update_account] never reads the clock: the record it
    returns carries the stored record's [updated_at]. *)
Lemma update_account_never_restamps (account_id : UUID) (u : AccountUpdate.t)
      (w w' : World) (r : AccountRead.t) :
  update_account account_id u w = (Ok r, w') ->
  exists old,
    dict_get account_id (accounts w) = Some old
    /\ AccountRead.updated_at r = AccountRead.updated_at old
    /\ clock_reads w' = clock_reads w.
Proof.
  intros Hrun.
  destruct (dict_get account_id (accounts w)) as [old|] eqn:Hget.
  - exists old. split; [reflexivity|].
    rewrite (update_account_run _ u _ Hget), new_AccountRead_merged in Hrun.
    destruct (overlay (AccountUpdate.is_set "username" u)
                      (AccountUpdate.username u) (AccountRead.username old)),
             (overlay (AccountUpdate.is_set "number_id" u)
                      (AccountUpdate.number_id u) (AccountRead.number_id old)),
             (overlay (AccountUpdate.is_set "amount" u)
                      (AccountUpdate.amount u) (AccountRead.amount old));
      inversion Hrun; subst; split; reflexivity.
  - exfalso.
    assert (Hc : dict_contains account_id (accounts w) = false).
    { destruct (dict_contains account_id (accounts w)) eqn:E; [|reflexivity].
      apply dict_get_contains in E. destruct E as [v Hv]. congruence. }
    unfold update_account, bind, contains in Hrun.
    cbn [load accounts_db] in Hrun. rewrite Hc in Hrun. discriminate.
Qed.

(** C1, at the account created from [alice]: when the PATCH arrives the
    clock reads [1002], yet both [PATCH {amount: 20.0}] and the PATCH with
    no field succeed and return, and store, a record whose [updated_at] is
    still [1001], the value stamped at creation; the clock is not read. *)
Theorem patch_leaves_updated_at_at_creation_value :
  clock world_with_alice (clock_reads world_with_alice) = 1002%Z
  /\ (exists r w',
         update_account 7%N patch_amount world_with_alice = (Ok r, w')
         /\ dict_get 7%N (accounts w') = Some r
         /\ AccountRead.amount r = float_20
         /\ AccountRead.updated_at r = 1001%Z
         /\ clock_reads w' = clock_reads world_with_alice)
  /\ (exists r w',
         update_account 7%N patch_nothing world_with_alice = (Ok r, w')
         /\ dict_get 7%N (accounts w') = Some r
         /\ AccountRead.updated_at r = 1001%Z
         /\ clock_reads w' = clock_reads world_with_alice).
Proof.
  split; [reflexivity|].
  split; do 2 eexists; (split; [vm_compute; reflexivity|]); repeat split.
Qed.

(** C3, as amended.  For every stored record and every update payload in
    which no supplied field is null, [update_account] succeeds and changes
    exactly the supplied domain fields: each supplied field takes the
    payload's value, every other domain field, [id] and [created_at] keep
    the stored value; the merged record replaces the stored one under the
    same key, no key is added or moved, and every other entry is as it
    was. *)
Theorem update_account_changes_exactly_the_supplied_fields
        (account_id : UUID) (u : AccountUpdate.t) (w : World)
        (old : AccountRead.t)
        (Hstored : dict_get account_id (accounts w) = Some old)
        (Husername : AccountUpdate.is_set "username" u = true ->
                     AccountUpdate.username u <> None)
        (Hnumber_id : AccountUpdate.is_set "number_id" u = true ->
                      AccountUpdate.number_id u <> None)
        (Hamount : AccountUpdate.is_set "amount" u = true ->
                   AccountUpdate.amount u <> None) :
  exists r w',
    update_account account_id u w = (Ok r, w')
    /\ dict_get account_id (accounts w') = Some r
    /\ (AccountUpdate.is_set "username" u = true ->
        AccountUpdate.username u = Some (AccountRead.username r))
    /\ (AccountUpdate.is_set "username" u = false ->
        AccountRead.username r = AccountRead.username old)
    /\ (AccountUpdate.is_set "number_id" u = true ->
        AccountUpdate.number_id u = Some (AccountRead.number_id r))
    /\ (AccountUpdate.is_set "number_id" u = false ->
        AccountRead.number_id r = AccountRead.number_id old)
    /\ (AccountUpdate.is_set "amount" u = true ->
        AccountUpdate.amount u = Some (AccountRead.amount r))
    /\ (AccountUpdate.is_set "amount" u = false ->
        AccountRead.amount r = AccountRead.amount old)
    /\ AccountRead.id r = AccountRead.id old
    /\ AccountRead.created_at r = AccountRead.created_at old
    /\ dict_keys (accounts w') = dict_keys (accounts w)
    /\ (forall other, other <> account_id ->
                      dict_get other (accounts w') = dict_get other (accounts w))
    /\ persons w' = persons w /\ addresses w' = addresses w
    /\ classes w' = classes w.
Proof.
  assert (Hin : dict_contains account_id (accounts w) = true)
    by (apply dict_get_contains; eauto).
  rewrite (update_account_run _ u _ Hstored), new_AccountRead_merged.
  unfold overlay.
  destruct (AccountUpdate.is_set "username" u);
    [destruct (AccountUpdate.username u); [|now destruct Husername]|];
    (destruct (AccountUpdate.is_set "number_id" u);
     [destruct (AccountUpdate.number_id u); [|now destruct Hnumber_id]|]);
    (destruct (AccountUpdate.is_set "amount" u);
     [destruct (AccountUpdate.amount u); [|now destruct Hamount]|]);
    do 2 eexists; (split; [reflexivity|]);
    cbn [accounts set_accounts persons addresses classes
         AccountRead.username AccountRead.number_id AccountRead.amount
         AccountRead.id AccountRead.created_at];
    (split; [apply dict_get_set_same|]);
    repeat (split; [first [reflexivity | discriminate | intros _; reflexivity]|]);
    (split; [now apply dict_keys_set_present|]);
    (split; [intros other Hne; now apply dict_get_set_other|]);
    repeat split.
Qed.

Lemma update_account_changes_exactly_the_supplied_fields_witness :
  exists r w',
    update_account 7%N patch_amount world_with_alice = (Ok r, w')
    /\ dict_get 7%N (accounts w') = Some r
    /\ AccountRead.amount r = float_20
    /\ AccountRead.username r = "alice"
    /\ AccountRead.number_id r = 1%Z
    /\ AccountRead.id r = 7%N
    /\ AccountRead.created_at r = 1000%Z.
Proof.
  destruct (@update_account_changes_exactly_the_supplied_fields
              7%N patch_amount world_with_alice
              (AccountRead.Build "alice" 1 float_10 7%N 1000%Z 1001%Z))
    as (r & w' & Hrun & Hget & _ & Hu & _ & Hn & Ha & _ & Hid & Hc & _).
  - reflexivity.
  - discriminate.
  - discriminate.
  - discriminate.
  - exists r, w'.
    assert (Hamt : AccountRead.amount r = float_20)
      by (specialize (Ha eq_refl); simpl in Ha; congruence).
    exact (conj Hrun (conj Hget (conj Hamt
            (conj (Hu eq_refl) (conj (Hn eq_refl) (conj Hid Hc)))))).
Defined.

(** C3 as stated fails: [username] is supplied, with a null, in
    [patch_null_username], yet the PATCH of the account created from
    [alice] changes nothing: the model call refuses the null for the
    non-optional [username] and the store is left as it was. *)
Lemma supplied_null_username_changes_nothing :
  dict_get 7%N (accounts world_with_alice)
  = Some (AccountRead.Build "alice" 1 float_10 7%N 1000%Z 1001%Z)
  /\ AccountUpdate.model_dump_exclude_unset patch_null_username
     = [("username", VNone)]
  /\ update_account 7%N patch_null_username world_with_alice
     = (Raise (ValidationError "AccountRead" "username"), world_with_alice).
Proof. repeat split. Qed.

(** ** PATCH of a class *)

(** The model call on the merged dictionary of [update_class]: [name] is
    not optional and refuses a supplied null, [description] is optional
    and takes it. *)
Lemma new_ClassRead_merged (old : ClassRead.t) (u : ClassUpdate.t)
      (w : World) :
  new_ClassRead
    (kw_update (ClassRead.model_dump old)
               (ClassUpdate.model_dump_exclude_unset u)) w
  = match overlay (ClassUpdate.is_set "name" u)
                  (ClassUpdate.name u) (ClassRead.name old) with
    | Some name =>
        (Ok (ClassRead.Build name
                             (if ClassUpdate.is_set "description" u
                              then ClassUpdate.description u
                              else ClassRead.description old)
                             (ClassRead.created_at old)
                             (ClassRead.updated_at old)), w)
    | None => (Raise (ValidationError "ClassRead" "name"), w)
    end.
Proof.
  destruct old as [old_name [old_description|] old_created old_updated];
    unfold ClassUpdate.model_dump_exclude_unset, overlay; simpl;
    destruct (ClassUpdate.is_set "name" u),
             (ClassUpdate.is_set "description" u);
    destruct (ClassUpdate.name u), (ClassUpdate.description u);
    reflexivity.
Qed.

Lemma update_class_run (class_id : UUID) (u : ClassUpdate.t)
      (w : World) (old : ClassRead.t) :
  dict_get class_id (classes w) = Some old ->
  update_class class_id u w
  = match new_ClassRead
            (kw_update (ClassRead.model_dump old)
                       (ClassUpdate.model_dump_exclude_unset u)) w with
    | (Ok r, _) => (Ok r, set_classes (dict_set class_id r (classes w)) w)
    | (Raise e, _) => (Raise e, w)
    end.
Proof.
  intros Hget.
  assert (Hin : dict_contains class_id (classes w) = true)
    by (apply dict_get_contains; eauto).
  unfold update_class, bind, contains, getitem.
  cbn [load classes_db negb]. rewrite Hin. cbn [negb]. rewrite Hget.
  rewrite new_ClassRead_merged.
  destruct (overlay (ClassUpdate.is_set "name" u)
                    (ClassUpdate.name u) (ClassRead.name old));
    try reflexivity.
  unfold setitem. cbn [load save classes_db classes set_classes].
  now rewrite dict_get_set_same.
Qed.

(** C9.  For every stored class and every update payload, when
    [update_class] succeeds, each field that the payload supplies with a
    null is null in the record returned, and that record is the one now
    stored under the key: whether a field is applied is decided by its
    presence in the payload, not by its value. *)
Theorem supplied_null_overrides_stored_value
        (class_id : UUID) (u : ClassUpdate.t) (w w' : World)
        (r : ClassRead.t) (field : string)
        (Hrun : update_class class_id u w = (Ok r, w'))
        (Hnull : In (field, VNone) (ClassUpdate.model_dump_exclude_unset u)) :
  kw_get field (ClassRead.model_dump r) = Some VNone
  /\ dict_get class_id (classes w') = Some r.
Proof.
  destruct (dict_get class_id (classes w)) as [old|] eqn:Hget.
  - rewrite (update_class_run _ u _ Hget), new_ClassRead_merged in Hrun.
    unfold ClassUpdate.model_dump_exclude_unset in Hnull.
    apply filter_In in Hnull. destruct Hnull as [Hin Hset].
    cbn [fst] in Hset. unfold overlay in Hrun.
    simpl in Hin.
    destruct Hin as [Hname | [Hdesc | []]].
    + inversion Hname as [[Hf Hv]]. rewrite <- Hf in Hset.
      rewrite Hset in Hrun.
      destruct (ClassUpdate.name u); discriminate.
    + inversion Hdesc as [[Hf Hv]]. rewrite <- Hf in Hset.
      rewrite Hset in Hrun.
      destruct (ClassUpdate.description u); [discriminate|].
      destruct (if ClassUpdate.is_set "name" u
                then ClassUpdate.name u
                else Some (ClassRead.name old)) as [name|];
        inversion Hrun; subst.
      split; [reflexivity|]. simpl. apply dict_get_set_same.
  - exfalso.
    assert (Hc : dict_contains class_id (classes w) = false).
    { destruct (dict_contains class_id (classes w)) eqn:E; [|reflexivity].
      apply dict_get_contains in E. destruct E as [v Hv]. congruence. }
    unfold update_class, bind, contains in Hrun.
    cbn [load classes_db] in Hrun. rewrite Hc in Hrun. discriminate.
Qed.

Lemma supplied_null_overrides_stored_value_witness :
  exists r w',
    update_class 3%N patch_null_description world_with_a_class = (Ok r, w')
    /\ ClassRead.description r = None
    /\ ClassRead.name r = "Mathematics 101"
    /\ kw_get "description" (ClassRead.model_dump r) = Some VNone
    /\ dict_get 3%N (classes w') = Some r.
Proof.
  exists (ClassRead.Build "Mathematics 101" None 1000%Z 1001%Z).
  eexists.
  split; [vm_compute; reflexivity|].
  split; [reflexivity|]. split; [reflexivity|].
  eapply (@supplied_null_overrides_stored_value
            3%N patch_null_description world_with_a_class).
  - vm_compute. reflexivity.
  - left. reflexivity.
Defined.

(** ** Scenarios *)

(** A person with addresses in NYC and Boston is listed for [city=Boston]
    and for [city=NYC], and not for [city=Chicago]. *)
Example nested_filter_scenario :
  (exists p, list_persons None None None None None None (Some "Boston") None
                          world_with_ada = (Ok [p], world_with_ada))
  /\ (exists p, list_persons None None None None None None (Some "NYC") None
                             world_with_ada = (Ok [p], world_with_ada))
  /\ list_persons None None None None None None (Some "Chicago") None
                  world_with_ada = (Ok [], world_with_ada).
Proof. repeat split; eexists; vm_compute; reflexivity. Qed.

(** The birth date 5 January 2000 has the text form [2000-01-05]; the
    filter text must be that string, another spelling of the same day
    matches nothing. *)
Example birth_date_scenario :
  str_date (mkDate 2000 1 5) = "2000-01-05"
  /\ (exists p, list_persons None None None None None (Some "2000-01-05")
                             None None world_with_ada
                = (Ok [p], world_with_ada))
  /\ list_persons None None None None None (Some "20000105") None None
                  world_with_ada = (Ok [], world_with_ada)
  /\ list_persons None None None None None (Some "2000-1-5") None None
                  world_with_ada = (Ok [], world_with_ada).
Proof.
  split; [reflexivity|].
  split; [eexists; vm_compute; reflexivity|].
  split; vm_compute; reflexivity.
Qed.

(** Create [alice], PATCH [{amount: 20.0}]: the amount becomes 20.0,
    [username] and [number_id] are unchanged, [GET /accounts?amount=20.0]
    returns exactly this account and [GET /accounts?amount=10.0] nothing. *)
Example account_scenario :
  let session amount :=
    (create_account alice ;;
     update_account 7%N patch_amount ;;
     list_accounts None None (Some amount)) in
  result_of (session float_20) fresh_world
  = Ok [AccountRead.Build "alice" 1 float_20 7%N 1000%Z 1001%Z]
  /\ result_of (session float_10) fresh_world = Ok [].
Proof. split; vm_compute; reflexivity. Qed.

(** New keys are listed last: a second account follows the first in the
    scan, also after the first has been patched. *)
Example insertion_order_scenario :
  let session :=
    (create_account alice ;;
     create_account (AccountCreate.Build "bob" 2 float_20) ;;
     update_account 7%N patch_amount ;;
     list_accounts None None None) in
  result_of session fresh_world
  = Ok [AccountRead.Build "alice" 1 float_20 7%N 1000%Z 1001%Z;
        AccountRead.Build "bob" 2 float_20 8%N 1002%Z 1003%Z].
Proof. vm_compute. reflexivity. Qed.

(** * Further properties of the handlers *)

(** ** More on dictionaries *)

Section DictMoreFacts.
Variable V : Type.
Implicit Types (d : Dict V) (k : UUID) (v : V).

Lemma dict_contains_keys k d :
  dict_contains k d = true <-> In k (dict_keys d).
Proof.
  induction d as [|[k0 v0] d IH]; simpl.
  - split; [discriminate | tauto].
  - rewrite orb_true_iff, IH, N.eqb_eq. intuition congruence.
Qed.

Lemma dict_contains_false_keys k d :
  dict_contains k d = false <-> ~ In k (dict_keys d).
Proof.
  rewrite <- dict_contains_keys.
  destruct (dict_contains k d); intuition congruence.
Qed.

Lemma dict_keys_set k v d :
  dict_keys (dict_set k v d)
  = if dict_contains k d then dict_keys d else (dict_keys d ++ [k])%list.
Proof.
  destruct (dict_contains k d) eqn:E.
  - now apply dict_keys_set_present.
  - rewrite (dict_set_fresh _ _ _ E). unfold dict_keys. now rewrite map_app.
Qed.

Lemma dict_set_length_present k v d :
  dict_contains k d = true -> List.length (dict_set k v d) = List.length d.
Proof.
  induction d as [|[k0 v0] d IH]; simpl; [discriminate|].
  destruct (N.eqb k k0); simpl; [reflexivity|].
  intros H. now rewrite IH.
Qed.

Lemma dict_set_NoDup k v d :
  NoDup (dict_keys d) -> NoDup (dict_keys (dict_set k v d)).
Proof.
  intros Hnd. rewrite dict_keys_set.
  destruct (dict_contains k d) eqn:E; [assumption|].
  apply dict_contains_false_keys in E.
  apply NoDup_app; [assumption | repeat constructor; simpl; tauto |].
  intros x Hx [<- | []]. contradiction.
Qed.

Lemma dict_set_In k v d k' v' :
  In (k', v') (dict_set k v d) -> (k' = k /\ v' = v) \/ In (k', v') d.
Proof.
  induction d as [|[k0 v0] d IH]; simpl.
  - intros [[= <- <-] | []]. now left.
  - destruct (N.eqb_spec k k0) as [->|Hne]; simpl.
    + intros [[= <- <-] | Hin]; [now left | right; now right].
    + intros [Heq | Hin]; [right; now left|].
      destruct (IH Hin) as [?|?]; [now left | right; now right].
Qed.

(** With distinct keys, an entry of the dictionary is what lookup finds. *)
Lemma dict_get_In k v d :
  NoDup (dict_keys d) -> In (k, v) d -> dict_get k d = Some v.
Proof.
  induction d as [|[k0 v0] d IH]; simpl; [tauto|].
  intros Hnd [[= -> ->] | Hin].
  - now rewrite N.eqb_refl.
  - inversion Hnd as [|? ? Hnotin Hnd']; subst.
    destruct (N.eqb_spec k k0) as [->|Hne]; [|auto].
    exfalso. apply Hnotin. unfold dict_keys.
    change k0 with (fst (k0, v)). now apply in_map.
Qed.

Lemma dict_In_get k v d : dict_get k d = Some v -> In (k, v) d.
Proof.
  induction d as [|[k0 v0] d IH]; simpl; [discriminate|].
  destruct (N.eqb_spec k k0) as [->|Hne].
  - intros [= ->]. now left.
  - intros H. right. auto.
Qed.

(** Assigning the value a key already has changes nothing. *)
Lemma dict_set_same k v d : dict_get k d = Some v -> dict_set k v d = d.
Proof.
  induction d as [|[k0 v0] d IH]; simpl; [discriminate|].
  destruct (N.eqb k k0).
  - now intros [= ->].
  - intros H. now rewrite IH.
Qed.

(** Assigning twice to a key is assigning the last value. *)
Lemma dict_set_set k v v' d :
  dict_set k v' (dict_set k v d) = dict_set k v' d.
Proof.
  induction d as [|[k0 v0] d IH]; simpl.
  - now rewrite N.eqb_refl.
  - destruct (N.eqb k k0) eqn:E; simpl; rewrite E; [reflexivity|].
    now rewrite IH.
Qed.

Lemma dict_contains_set k k' v d :
  dict_contains k' (dict_set k v d) = N.eqb k' k || dict_contains k' d.
Proof.
  induction d as [|[k0 v0] d IH]; simpl.
  - reflexivity.
  - destruct (N.eqb_spec k k0) as [->|Hne]; simpl.
    + now destruct (N.eqb k' k0).
    + rewrite IH. destruct (N.eqb k' k), (N.eqb k' k0); reflexivity.
Qed.
End DictMoreFacts.

Lemma keyed_by_id_nil {V} (ident : V -> UUID) : keyed_by_id ident [].
Proof. split; [constructor | intros k r []]. Qed.

Lemma keyed_by_id_set {V} (ident : V -> UUID) (d : Dict V) k r :
  keyed_by_id ident d -> ident r = k -> keyed_by_id ident (dict_set k r d).
Proof.
  intros [Hnd Hid] Hr. split; [now apply dict_set_NoDup|].
  intros k' r' Hin. apply dict_set_In in Hin.
  destruct Hin as [[-> ->] | Hin]; auto.
Qed.

(** ** Point lookup *)

(** The body shared by the four [get_*] handlers. *)
Lemma lookup_or_404_run {V} (db : Store V) (detail : string) (k : UUID)
      (w : World) :
  (present <- contains db k ;;
   if negb present
   then raise (HTTPException 404 detail)
   else getitem db k) w
  = match dict_get k (load db w) with
    | Some v => (Ok v, w)
    | None => (Raise (HTTPException 404 detail), w)
    end.
Proof.
  unfold bind, contains, getitem.
  destruct (dict_get k (load db w)) as [v|] eqn:Hget.
  - assert (Hin : dict_contains k (load db w) = true)
      by (apply dict_get_contains; eauto).
    rewrite Hin. cbn [negb]. now rewrite Hget.
  - assert (Hin : dict_contains k (load db w) = false).
    { destruct (dict_contains k (load db w)) eqn:E; [|reflexivity].
      apply dict_get_contains in E. destruct E as [v Hv]. congruence. }
    now rewrite Hin.
Qed.

Lemma lookup_or_404_ok {V} (db : Store V) (detail : string) (k : UUID)
      (w w' : World) (r : V) :
  (match dict_get k (load db w) with
   | Some v => (Ok v, w)
   | None => (Raise (HTTPException 404 detail), w)
   end) = (Ok r, w')
  <-> dict_get k (load db w) = Some r /\ w' = w.
Proof.
  destruct (dict_get k (load db w)) as [v|]; split.
  - intros [= -> ->]. auto.
  - intros [[= ->] ->]. reflexivity.
  - discriminate.
  - intros [[=] _].
Qed.

(** X1.  A point lookup succeeds exactly when the identity is stored, and
    then returns the stored record and leaves the world as it was; this
    holds for each of the four collections. *)
Theorem get_returns_exactly_the_stored_record (k : UUID) (w w' : World) :
  (forall r, get_account k w = (Ok r, w')
             <-> dict_get k (accounts w) = Some r /\ w' = w)
  /\ (forall r, get_class k w = (Ok r, w')
                <-> dict_get k (classes w) = Some r /\ w' = w)
  /\ (forall r, get_address k w = (Ok r, w')
                <-> dict_get k (addresses w) = Some r /\ w' = w)
  /\ (forall r, get_person k w = (Ok r, w')
                <-> dict_get k (persons w) = Some r /\ w' = w).
Proof.
  unfold get_account, get_class, get_address, get_person.
  split; [|split; [|split]]; intros r;
    rewrite lookup_or_404_run; apply lookup_or_404_ok.
Qed.

(** ** Creating an account, continued *)

(** X2.  [create_account] always succeeds; the record it returns carries
    the payload's three domain fields and the identifier drawn from
    [uuid4], it is stored under that identifier, every other key keeps its
    record, and the other three stores are untouched. *)
Theorem create_account_stores_the_payload_under_its_id
        (account : AccountCreate.t) (w : World) :
  exists r w',
    create_account account w = (Ok r, w')
    /\ AccountRead.username r = AccountCreate.username account
    /\ AccountRead.number_id r = AccountCreate.number_id account
    /\ AccountRead.amount r = AccountCreate.amount account
    /\ AccountRead.id r = uuid_source w (uuid_draws w)
    /\ dict_get (AccountRead.id r) (accounts w') = Some r
    /\ (forall other, other <> AccountRead.id r ->
                      dict_get other (accounts w') = dict_get other (accounts w))
    /\ persons w' = persons w /\ addresses w' = addresses w
    /\ classes w' = classes w.
Proof.
  do 2 eexists. split; [apply create_account_run|].
  cbn [AccountRead.username AccountRead.number_id AccountRead.amount
       AccountRead.id accounts persons addresses classes].
  repeat (split; [reflexivity|]).
  split; [apply dict_get_set_same|].
  split; [intros other Hne; now apply dict_get_set_other|].
  repeat split.
Qed.

(** X3.  When the identifier drawn is not yet a key, the new account is
    listed last: the unfiltered listing after the creation is the listing
    before it followed by the new record. *)
Theorem create_account_appends_to_the_listing
        (account : AccountCreate.t) (w : World)
        (Hfresh : dict_contains (uuid_source w (uuid_draws w)) (accounts w)
                  = false) :
  exists r w' before after,
    create_account account w = (Ok r, w')
    /\ list_accounts None None None w = (Ok before, w)
    /\ list_accounts None None None w' = (Ok after, w')
    /\ after = (before ++ [r])%list.
Proof.
  do 4 eexists. split; [apply create_account_run|].
  split; [reflexivity|]. split; [reflexivity|].
  cbn [accounts AccountRead.id]. now apply dict_values_set_fresh.
Qed.

Lemma create_account_appends_to_the_listing_witness :
  exists r w' after,
    create_account (AccountCreate.Build "bob" 2 float_20) world_with_alice
    = (Ok r, w')
    /\ list_accounts None None None w' = (Ok after, w')
    /\ after = [AccountRead.Build "alice" 1 float_10 7%N 1000%Z 1001%Z; r].
Proof.
  destruct (@create_account_appends_to_the_listing
              (AccountCreate.Build "bob" 2 float_20) world_with_alice)
    as (r & w' & before & after & Hrun & Hb & Ha & Heq).
  - reflexivity.
  - exists r, w', after.
    refine (conj Hrun (conj Ha _)).
    rewrite Heq. injection Hb as <-. reflexivity.
Defined.

(** X4.  [create_account] does not check the identifier it draws: when
    [uuid4] returns a key already present, the record stored under that
    key is replaced by the new one, no key is added and the listing keeps
    its length. *)
Theorem create_account_overwrites_on_identifier_collision
        (account : AccountCreate.t) (w : World) (old : AccountRead.t)
        (Hold : dict_get (uuid_source w (uuid_draws w)) (accounts w)
                = Some old) :
  exists r w',
    create_account account w = (Ok r, w')
    /\ AccountRead.id r = uuid_source w (uuid_draws w)
    /\ dict_get (AccountRead.id r) (accounts w') = Some r
    /\ AccountRead.username r = AccountCreate.username account
    /\ dict_keys (accounts w') = dict_keys (accounts w)
    /\ List.length (dict_values (accounts w'))
       = List.length (dict_values (accounts w)).
Proof.
  assert (Hin : dict_contains (uuid_source w (uuid_draws w)) (accounts w)
                = true) by (apply dict_get_contains; eauto).
  do 2 eexists. split; [apply create_account_run|].
  cbn [accounts AccountRead.id AccountRead.username].
  split; [reflexivity|].
  split; [apply dict_get_set_same|].
  split; [reflexivity|].
  split; [now apply dict_keys_set_present|].
  unfold dict_values. rewrite !length_map.
  now apply dict_set_length_present.
Qed.

Lemma create_account_overwrites_on_identifier_collision_witness :
  exists r w',
    create_account (AccountCreate.Build "bob" 2 float_20)
                   (world_after (create_account alice) world_with_stuck_uuid)
    = (Ok r, w')
    /\ AccountRead.id r = 7%N
    /\ AccountRead.username r = "bob"
    /\ dict_keys (accounts w') = [7%N].
Proof.
  destruct (@create_account_overwrites_on_identifier_collision
              (AccountCreate.Build "bob" 2 float_20)
              (world_after (create_account alice) world_with_stuck_uuid)
              (AccountRead.Build "alice" 1 float_10 7%N 1000%Z 1001%Z))
    as (r & w' & Hrun & Hid & _ & Hname & Hkeys & _).
  - reflexivity.
  - exists r, w'. exact (conj Hrun (conj Hid (conj Hname Hkeys))).
Defined.

(** X5.  A freshly created account can be fetched at once: [get_account]
    on the identifier of the record that [create_account] returned gives
    that same record back and changes nothing. *)
Theorem create_account_then_get_account (account : AccountCreate.t)
        (w : World) :
  exists r w',
    create_account account w = (Ok r, w')
    /\ get_account (AccountRead.id r) w' = (Ok r, w').
Proof.
  do 2 eexists. split; [apply create_account_run|].
  unfold get_account. rewrite lookup_or_404_run.
  cbn [load accounts_db accounts AccountRead.id].
  now rewrite dict_get_set_same.
Qed.

(** ** PATCH of an account, continued *)

Lemma update_account_absent (account_id : UUID) (u : AccountUpdate.t)
      (w : World) :
  dict_get account_id (accounts w) = None ->
  update_account account_id u w
  = (Raise (HTTPException 404 "Account not found"), w).
Proof.
  intros Hget.
  assert (Hc : dict_contains account_id (accounts w) = false).
  { destruct (dict_contains account_id (accounts w)) eqn:E; [|reflexivity].
    apply dict_get_contains in E. destruct E as [v Hv]. congruence. }
  unfold update_account, bind, contains.
  cbn [load accounts_db]. now rewrite Hc.
Qed.

Lemma overlay_again {T} (is_set : bool) (given : option T) (stored x : T) :
  overlay is_set given stored = Some x -> overlay is_set given x = Some x.
Proof. unfold overlay. destruct is_set; [auto | reflexivity]. Qed.

Lemma overlay_some {T} (is_set : bool) (given : option T) (stored x : T) :
  overlay is_set given stored = Some x -> is_set = true -> given <> None.
Proof. unfold overlay. intros H ->. congruence. Qed.

Lemma overlay_none {T} (is_set : bool) (given : option T) (stored : T) :
  overlay is_set given stored = None -> is_set = true /\ given = None.
Proof. unfold overlay. destruct is_set; [auto | discriminate]. Qed.

Lemma set_accounts_accounts (w : World) : set_accounts (accounts w) w = w.
Proof. now destruct w. Qed.

Lemma set_accounts_twice (d d' : Dict AccountRead.t) (w : World) :
  set_accounts d' (set_accounts d w) = set_accounts d' w.
Proof. reflexivity. Qed.

(** X6.  [update_account] succeeds exactly when the identity is stored and
    the payload supplies no null; when it raises, the error is the 404 for
    an absent identity or a validation error of [AccountRead], and the
    world is left exactly as it was. *)
Theorem update_account_succeeds_exactly_when
        (account_id : UUID) (u : AccountUpdate.t) (w : World) :
  ((exists r w', update_account account_id u w = (Ok r, w'))
   <-> dict_contains account_id (accounts w) = true
       /\ (AccountUpdate.is_set "username" u = true ->
           AccountUpdate.username u <> None)
       /\ (AccountUpdate.is_set "number_id" u = true ->
           AccountUpdate.number_id u <> None)
       /\ (AccountUpdate.is_set "amount" u = true ->
           AccountUpdate.amount u <> None))
  /\ (forall e w',
         update_account account_id u w = (Raise e, w') ->
         w' = w
         /\ (e = HTTPException 404 "Account not found"
             \/ exists field, e = ValidationError "AccountRead" field)).
Proof.
  destruct (dict_get account_id (accounts w)) as [old|] eqn:Hget.
  - assert (Hin : dict_contains account_id (accounts w) = true)
      by (apply dict_get_contains; eauto).
    rewrite (update_account_run _ u _ Hget), new_AccountRead_merged.
    destruct (overlay (AccountUpdate.is_set "username" u)
                      (AccountUpdate.username u) (AccountRead.username old))
      as [username|] eqn:Hu;
      [destruct (overlay (AccountUpdate.is_set "number_id" u)
                         (AccountUpdate.number_id u)
                         (AccountRead.number_id old))
         as [number_id|] eqn:Hn;
       [destruct (overlay (AccountUpdate.is_set "amount" u)
                          (AccountUpdate.amount u) (AccountRead.amount old))
          as [amount|] eqn:Ha|]|].
    + split.
      * split; [|intros _; eauto].
        intros _. split; [assumption|].
        split; [|split]; eapply overlay_some; eassumption.
      * intros e w' [=].
    + split.
      * split; [intros (r & w' & [=])|].
        intros (_ & _ & _ & H). destruct (overlay_none _ _ _ Ha); tauto.
      * intros e w' [= <- <-]. split; [reflexivity | right; eauto].
    + split.
      * split; [intros (r & w' & [=])|].
        intros (_ & _ & H & _). destruct (overlay_none _ _ _ Hn); tauto.
      * intros e w' [= <- <-]. split; [reflexivity | right; eauto].
    + split.
      * split; [intros (r & w' & [=])|].
        intros (_ & H & _ & _). destruct (overlay_none _ _ _ Hu); tauto.
      * intros e w' [= <- <-]. split; [reflexivity | right; eauto].
  - rewrite (update_account_absent _ u _ Hget).
    split.
    + split.
      * intros (r & w' & Hrun). discriminate.
      * intros [Hin _]. apply dict_get_contains in Hin.
        destruct Hin as [v Hv]. congruence.
    + intros e w' [= <- <-]. auto.
Qed.

(** X7.  [update_account] is idempotent: sending the same PATCH a second
    time gives the same response as the first and leaves the world the
    first one produced, whether the first succeeded or raised. *)
Theorem update_account_is_idempotent
        (account_id : UUID) (u : AccountUpdate.t) (w : World) :
  update_account account_id u (world_after (update_account account_id u) w)
  = (result_of (update_account account_id u) w,
     world_after (update_account account_id u) w).
Proof.
  unfold world_after, result_of.
  destruct (dict_get account_id (accounts w)) as [old|] eqn:Hget.
  - rewrite (update_account_run _ u _ Hget), new_AccountRead_merged.
    destruct (overlay (AccountUpdate.is_set "username" u)
                      (AccountUpdate.username u) (AccountRead.username old))
      as [username|] eqn:Hu;
      [destruct (overlay (AccountUpdate.is_set "number_id" u)
                         (AccountUpdate.number_id u)
                         (AccountRead.number_id old))
         as [number_id|] eqn:Hn;
       [destruct (overlay (AccountUpdate.is_set "amount" u)
                          (AccountUpdate.amount u) (AccountRead.amount old))
          as [amount|] eqn:Ha|]|];
      cbn [fst snd];
      try (rewrite (update_account_run _ u _ Hget), new_AccountRead_merged,
             Hu, ?Hn, ?Ha; reflexivity).
    erewrite update_account_run
      by (cbn [accounts set_accounts]; apply dict_get_set_same).
    rewrite new_AccountRead_merged.
    cbn [AccountRead.username AccountRead.number_id AccountRead.amount
         AccountRead.id AccountRead.created_at AccountRead.updated_at].
    rewrite (overlay_again _ _ _ Hu), (overlay_again _ _ _ Hn),
      (overlay_again _ _ _ Ha).
    cbn [accounts set_accounts]. rewrite dict_set_set. reflexivity.
  - rewrite (update_account_absent _ u _ Hget). cbn [fst snd].
    now apply update_account_absent.
Qed.

(** X8.  A PATCH that sets no field on a stored account is a complete
    no-op: it returns the stored record itself and the world, timestamps
    included, is exactly the world before. *)
Theorem empty_patch_changes_nothing
        (account_id : UUID) (u : AccountUpdate.t) (w : World)
        (old : AccountRead.t)
        (Hstored : dict_get account_id (accounts w) = Some old)
        (Hempty : AccountUpdate.model_fields_set u = []) :
  update_account account_id u w = (Ok old, w).
Proof.
  rewrite (update_account_run _ u _ Hstored), new_AccountRead_merged.
  unfold AccountUpdate.is_set. rewrite Hempty. cbn [existsb overlay].
  replace (AccountRead.Build (AccountRead.username old)
             (AccountRead.number_id old) (AccountRead.amount old)
             (AccountRead.id old) (AccountRead.created_at old)
             (AccountRead.updated_at old)) with old by now destruct old.
  now rewrite (dict_set_same _ _ Hstored), set_accounts_accounts.
Qed.

Lemma empty_patch_changes_nothing_witness :
  update_account 7%N patch_nothing world_with_alice
  = (Ok (AccountRead.Build "alice" 1 float_10 7%N 1000%Z 1001%Z),
     world_with_alice).
Proof.
  apply (@empty_patch_changes_nothing 7%N patch_nothing world_with_alice).
  - reflexivity.
  - reflexivity.
Defined.

(** ** PATCH of a class, continued *)

(** X9.  On a stored class, [update_class] refuses a payload that supplies
    a null [name] with a validation error and writes nothing; any other
    payload succeeds: [name] is the supplied one or else the stored one,
    [description] is the supplied one, null included, or else the stored
    one, both timestamps are the stored ones, and the merged record
    replaces the stored one under the same key. *)
Theorem update_class_merges_name_and_description
        (class_id : UUID) (u : ClassUpdate.t) (w : World) (old : ClassRead.t)
        (Hstored : dict_get class_id (classes w) = Some old) :
  (ClassUpdate.is_set "name" u = true -> ClassUpdate.name u = None ->
   update_class class_id u w
   = (Raise (ValidationError "ClassRead" "name"), w))
  /\ ((ClassUpdate.is_set "name" u = true -> ClassUpdate.name u <> None) ->
      exists r,
        update_class class_id u w
        = (Ok r, set_classes (dict_set class_id r (classes w)) w)
        /\ (ClassUpdate.is_set "name" u = true ->
            ClassUpdate.name u = Some (ClassRead.name r))
        /\ (ClassUpdate.is_set "name" u = false ->
            ClassRead.name r = ClassRead.name old)
        /\ (ClassUpdate.is_set "description" u = true ->
            ClassRead.description r = ClassUpdate.description u)
        /\ (ClassUpdate.is_set "description" u = false ->
            ClassRead.description r = ClassRead.description old)
        /\ ClassRead.created_at r = ClassRead.created_at old
        /\ ClassRead.updated_at r = ClassRead.updated_at old).
Proof.
  rewrite (update_class_run _ u _ Hstored), new_ClassRead_merged.
  unfold overlay. split.
  - intros -> ->. reflexivity.
  - intros Hname.
    destruct (ClassUpdate.is_set "name" u);
      [destruct (ClassUpdate.name u); [|now destruct Hname]|];
      eexists; (split; [reflexivity|]);
      cbn [ClassRead.name ClassRead.description ClassRead.created_at
           ClassRead.updated_at];
      destruct (ClassUpdate.is_set "description" u);
      repeat split; first [reflexivity | discriminate | intros _; reflexivity].
Qed.

Lemma update_class_merges_name_and_description_witness :
  update_class 3%N (ClassUpdate.Build None None ["name"]) world_with_a_class
  = (Raise (ValidationError "ClassRead" "name"), world_with_a_class)
  /\ exists r,
      update_class 3%N (ClassUpdate.Build (Some "Mathematics 102") None
                                          ["name"; "description"])
                   world_with_a_class
      = (Ok r, set_classes (dict_set 3%N r (classes world_with_a_class))
                           world_with_a_class)
      /\ ClassRead.name r = "Mathematics 102"
      /\ ClassRead.description r = None
      /\ ClassRead.updated_at r = 1001%Z.
Proof.
  pose (old := ClassRead.Build "Mathematics 101"
                 (Some "An introductory course to Mathematics.")
                 1000%Z 1001%Z).
  split.
  - apply (proj1 (@update_class_merges_name_and_description
                    3%N (ClassUpdate.Build None None ["name"])
                    world_with_a_class old eq_refl));
      reflexivity.
  - destruct (proj2 (@update_class_merges_name_and_description
                       3%N (ClassUpdate.Build (Some "Mathematics 102") None
                                              ["name"; "description"])
                       world_with_a_class old eq_refl))
      as (r & Hrun & Hn & _ & Hd & _ & _ & Hup).
    + discriminate.
    + exists r.
      assert (Hname : ClassRead.name r = "Mathematics 102")
        by (specialize (Hn eq_refl); simpl in Hn; congruence).
      exact (conj Hrun (conj Hname (conj (Hd eq_refl) Hup))).
Defined.

(** ** Merged keyword arguments *)

Lemma kw_get_set_same k v d : kw_get k (kw_set k v d) = Some v.
Proof.
  induction d as [|[k0 v0] d IH]; simpl.
  - now rewrite String.eqb_refl.
  - destruct (String.eqb k k0) eqn:E; simpl; rewrite E; auto.
Qed.

Lemma kw_get_set_other k k' v d :
  k <> k' -> kw_get k (kw_set k' v d) = kw_get k d.
Proof.
  intros Hne. induction d as [|[k0 v0] d IH]; simpl.
  - destruct (String.eqb_spec k k'); [contradiction | reflexivity].
  - destruct (String.eqb_spec k' k0) as [->|Hk]; simpl.
    + destruct (String.eqb_spec k k0); [contradiction | reflexivity].
    + destruct (String.eqb k k0); auto.
Qed.

(** [d.update(u)] read at a key: the value of [u] when [u] has the key,
    the value of [d] otherwise. *)
Lemma kw_get_update k d u :
  NoDup (map fst u) ->
  kw_get k (kw_update d u)
  = match kw_get k u with Some v => Some v | None => kw_get k d end.
Proof.
  unfold kw_update. revert d.
  induction u as [|[k0 v0] u IH]; intros d Hnd; simpl; [reflexivity|].
  inversion Hnd as [|? ? Hnotin Hnd']; subst.
  rewrite (IH _ Hnd').
  destruct (String.eqb_spec k k0) as [->|Hne].
  - assert (Hnone : kw_get k0 u = None).
    { clear -Hnotin. induction u as [|[k1 v1] u IH]; simpl; [reflexivity|].
      simpl in Hnotin.
      destruct (String.eqb_spec k0 k1) as [->|]; [tauto|].
      apply IH. tauto. }
    rewrite Hnone. apply kw_get_set_same.
  - destruct (kw_get k u); [reflexivity|]. now apply kw_get_set_other.
Qed.

Lemma kw_get_filter (keep : string -> bool) k (l : kwargs) :
  kw_get k (filter (fun kv => keep (fst kv)) l)
  = if keep k then kw_get k l else None.
Proof.
  induction l as [|[k0 v0] l IH]; simpl.
  - now destruct (keep k).
  - destruct (keep k0) eqn:Ek0; simpl.
    + destruct (String.eqb_spec k k0) as [->|]; [now rewrite Ek0 | exact IH].
    + destruct (String.eqb_spec k k0) as [->|]; [|exact IH].
      now rewrite IH, Ek0.
Qed.

Lemma NoDup_keys_filter (keep : string * Value -> bool) (l : kwargs) :
  NoDup (map fst l) -> NoDup (map fst (filter keep l)).
Proof.
  induction l as [|[k0 v0] l IH]; simpl; [auto|].
  intros Hnd. inversion Hnd as [|? ? Hnotin Hnd']; subst.
  destruct (keep (k0, v0)); simpl; [|auto].
  constructor; [|auto].
  intros Hin. apply Hnotin.
  apply in_map_iff in Hin. destruct Hin as [[k1 v1] [Hk Hin]].
  apply filter_In in Hin. apply in_map_iff. exists (k1, v1). tauto.
Qed.

(** ** Address handlers *)

Lemma as_address_model_dump (a : AddressBase.t) :
  as_address (VDict (AddressBase.model_dump a)) = Some a.
Proof. now destruct a. Qed.

Lemma as_address_list_model_dump (l : list AddressBase.t) :
  as_address_list
    (VList (map (fun a => VDict (AddressBase.model_dump a)) l))
  = Some l.
Proof.
  unfold as_address_list. induction l as [|a l IH]; [reflexivity|].
  cbn [map all_some]. rewrite as_address_model_dump.
  cbn [map] in IH. now rewrite IH.
Qed.

(** The model call [AddressRead] when both timestamps are among the
    keyword arguments: the clock is not read, and on success every field
    of the record is the validated value of its keyword. *)
Lemma new_AddressRead_stamped (kw : kwargs) (w w' : World)
      (res : Result AddressRead.t) (c t : Value) :
  kw_get "created_at" kw = Some c ->
  kw_get "updated_at" kw = Some t ->
  new_AddressRead kw w = (res, w') ->
  w' = w
  /\ forall r, res = Ok r ->
       forall field, In field ["id"; "street"; "city"; "state"; "postal_code";
                               "country"; "created_at"; "updated_at"] ->
                     kw_get field kw
                     = kw_get field (AddressRead.model_dump r).
Proof.
  intros Hc Ht H.
  unfold new_AddressRead, bind, required, with_default_factory, ret, raise in H.
  rewrite Hc, Ht in H.
  destruct (kw_get "id" kw) as [[]|] eqn:E1; cbn in H;
    try (inversion H; subst; split; [reflexivity | discriminate]).
  destruct (kw_get "street" kw) as [[]|] eqn:E2; cbn in H;
    try (inversion H; subst; split; [reflexivity | discriminate]).
  destruct (kw_get "city" kw) as [[]|] eqn:E3; cbn in H;
    try (inversion H; subst; split; [reflexivity | discriminate]).
  destruct (kw_get "state" kw) as [[]|] eqn:E4; cbn in H;
    try (inversion H; subst; split; [reflexivity | discriminate]).
  destruct (kw_get "postal_code" kw) as [[]|] eqn:E5; cbn in H;
    try (inversion H; subst; split; [reflexivity | discriminate]).
  destruct (kw_get "country" kw) as [[]|] eqn:E6; cbn in H;
    try (inversion H; subst; split; [reflexivity | discriminate]).
  destruct c; cbn in H;
    try (inversion H; subst; split; [reflexivity | discriminate]).
  destruct t; cbn in H;
    try (inversion H; subst; split; [reflexivity | discriminate]).
  inversion H; subst. split; [reflexivity|].
  intros r [= <-] field Hin. simpl in Hin.
  repeat (destruct Hin as [<- | Hin]; [assumption|]). destruct Hin.
Qed.

Lemma update_address_run (address_id : UUID) (u : AddressUpdate.t)
      (w : World) (old : AddressRead.t) :
  dict_get address_id (addresses w) = Some old ->
  update_address address_id u w
  = match new_AddressRead
            (kw_update (AddressRead.model_dump old)
                       (AddressUpdate.model_dump_exclude_unset u)) w with
    | (Ok r, w1) =>
        (Ok r, set_addresses (dict_set address_id r (addresses w1)) w1)
    | (Raise e, w1) => (Raise e, w1)
    end.
Proof.
  intros Hget.
  assert (Hin : dict_contains address_id (addresses w) = true)
    by (apply dict_get_contains; eauto).
  unfold update_address, bind, contains, getitem.
  cbn [load addresses_db negb]. rewrite Hin. cbn [negb]. rewrite Hget.
  destruct (new_AddressRead _ w) as [[r|e] w1]; [|reflexivity].
  unfold setitem. cbn [load save addresses_db addresses set_addresses].
  now rewrite dict_get_set_same.
Qed.

Lemma update_address_absent (address_id : UUID) (u : AddressUpdate.t)
      (w : World) :
  dict_get address_id (addresses w) = None ->
  update_address address_id u w
  = (Raise (HTTPException 404 "Address not found"), w).
Proof.
  intros Hget.
  assert (Hc : dict_contains address_id (addresses w) = false).
  { destruct (dict_contains address_id (addresses w)) eqn:E; [|reflexivity].
    apply dict_get_contains in E. destruct E as [v Hv]. congruence. }
  unfold update_address, bind, contains.
  cbn [load addresses_db]. now rewrite Hc.
Qed.

(** The merged dictionary of [update_address], read at a key. *)
Lemma merged_address_kw (old : AddressRead.t) (u : AddressUpdate.t)
      (field : string) :
  kw_get field (kw_update (AddressRead.model_dump old)
                          (AddressUpdate.model_dump_exclude_unset u))
  = match (if AddressUpdate.is_set field u
           then kw_get field (AddressUpdate.model_dump u)
           else None) with
    | Some v => Some v
    | None => kw_get field (AddressRead.model_dump old)
    end.
Proof.
  rewrite kw_get_update.
  - unfold AddressUpdate.model_dump_exclude_unset.
    now rewrite (kw_get_filter (fun f => AddressUpdate.is_set f u)).
  - apply NoDup_keys_filter. simpl.
    repeat constructor; simpl; intuition discriminate.
Qed.

Lemma supplied_text (is_set : bool) (given : option string)
      (stored x : string) :
  match (if is_set then Some (AddressUpdate.dump_opt_str given) else None) with
  | Some v => Some v
  | None => Some (VStr stored)
  end = Some (VStr x) ->
  overlay is_set given stored = Some x.
Proof.
  unfold overlay. destruct is_set; [destruct given|]; simpl; congruence.
Qed.

(** What a PATCH does to a stored address. *)
Lemma update_address_effect
        (address_id : UUID) (u : AddressUpdate.t) (w w' : World)
        (old : AddressRead.t) (res : Result AddressRead.t)
        (Hstored : dict_get address_id (addresses w) = Some old)
        (Hrun : update_address address_id u w = (res, w')) :
  match res with
  | Raise _ => w' = w
  | Ok r =>
      w' = set_addresses (dict_set address_id r (addresses w)) w
      /\ AddressRead.id r = AddressRead.id old
      /\ AddressRead.created_at r = AddressRead.created_at old
      /\ AddressRead.updated_at r = AddressRead.updated_at old
      /\ overlay (AddressUpdate.is_set "street" u) (AddressUpdate.street u)
                 (AddressRead.street old) = Some (AddressRead.street r)
      /\ overlay (AddressUpdate.is_set "city" u) (AddressUpdate.city u)
                 (AddressRead.city old) = Some (AddressRead.city r)
      /\ overlay (AddressUpdate.is_set "state" u) (AddressUpdate.state u)
                 (AddressRead.state old) = Some (AddressRead.state r)
      /\ overlay (AddressUpdate.is_set "postal_code" u)
                 (AddressUpdate.postal_code u)
                 (AddressRead.postal_code old)
         = Some (AddressRead.postal_code r)
      /\ overlay (AddressUpdate.is_set "country" u) (AddressUpdate.country u)
                 (AddressRead.country old) = Some (AddressRead.country r)
  end.
Proof.
  rewrite (update_address_run _ u _ Hstored) in Hrun.
  destruct (new_AddressRead _ w) as [res1 w1] eqn:Hnew.
  eapply new_AddressRead_stamped in Hnew;
    [| rewrite merged_address_kw; cbn; destruct (AddressUpdate.is_set _ u);
       reflexivity ..].
  destruct Hnew as [-> Hfields].
  destruct res1 as [r|e]; inversion Hrun; subst; [|reflexivity].
  specialize (Hfields r eq_refl).
  assert (Hf : forall field,
             In field ["id"; "street"; "city"; "state"; "postal_code";
                       "country"; "created_at"; "updated_at"] ->
             match (if AddressUpdate.is_set field u
                    then kw_get field (AddressUpdate.model_dump u)
                    else None) with
             | Some v => Some v
             | None => kw_get field (AddressRead.model_dump old)
             end = kw_get field (AddressRead.model_dump r)).
  { intros field Hin. rewrite <- merged_address_kw. now apply Hfields. }
  split; [reflexivity|].
  assert (Hid := Hf "id" ltac:(in_list)).
  assert (Hc := Hf "created_at" ltac:(in_list)).
  assert (Hu := Hf "updated_at" ltac:(in_list)).
  assert (H1 := Hf "street" ltac:(in_list)).
  assert (H2 := Hf "city" ltac:(in_list)).
  assert (H3 := Hf "state" ltac:(in_list)).
  assert (H4 := Hf "postal_code" ltac:(in_list)).
  assert (H5 := Hf "country" ltac:(in_list)).
  cbn in Hid, Hc, Hu, H1, H2, H3, H4, H5.
  split; [destruct (AddressUpdate.is_set "id" u); congruence|].
  split; [destruct (AddressUpdate.is_set "created_at" u); congruence|].
  split; [destruct (AddressUpdate.is_set "updated_at" u); congruence|].
  repeat split; apply supplied_text; assumption.
Qed.



(** The model call of [create_address]: every field comes from the
    payload and the clock is read twice. *)
Lemma new_AddressRead_of_payload (a : AddressBase.t) (w : World) :
  new_AddressRead (AddressBase.model_dump a) w
  = (Ok (AddressRead.Build (AddressBase.id a) (AddressBase.street a)
                           (AddressBase.city a) (AddressBase.state a)
                           (AddressBase.postal_code a) (AddressBase.country a)
                           (clock w (clock_reads w))
                           (clock w (S (clock_reads w)))),
     mkWorld (persons w) (addresses w) (classes w) (accounts w)
             (clock w) (S (S (clock_reads w))) (uuid_source w) (uuid_draws w)).
Proof. destruct a; reflexivity. Qed.



(** ** Person handlers *)

(** The model call [PersonRead] when the identifier and both timestamps
    are among the keyword arguments: nothing is drawn or read, and on
    success these three fields are the validated keywords. *)
Lemma new_PersonRead_stamped (kw : kwargs) (w w' : World)
      (res : Result PersonRead.t) (i c t : Value) :
  kw_get "id" kw = Some i ->
  kw_get "created_at" kw = Some c ->
  kw_get "updated_at" kw = Some t ->
  new_PersonRead kw w = (res, w') ->
  w' = w
  /\ forall r, res = Ok r ->
       i = VUuid (PersonRead.id r)
       /\ c = VDatetime (PersonRead.created_at r)
       /\ t = VDatetime (PersonRead.updated_at r).
Proof.
  intros Hi Hc Ht H.
  unfold new_PersonRead, bind, required, with_default_factory, ret, raise in H.
  rewrite Hi, Hc, Ht in H.
  destruct (kw_get "uni" kw) as [[]|]; cbn in H;
    try (inversion H; subst; split; [reflexivity | discriminate]).
  destruct (kw_get "first_name" kw) as [[]|]; cbn in H;
    try (inversion H; subst; split; [reflexivity | discriminate]).
  destruct (kw_get "last_name" kw) as [[]|]; cbn in H;
    try (inversion H; subst; split; [reflexivity | discriminate]).
  destruct (kw_get "email" kw) as [[]|]; cbn in H;
    try (inversion H; subst; split; [reflexivity | discriminate]).
  destruct (kw_get "phone" kw) as [[]|]; cbn in H;
    try (inversion H; subst; split; [reflexivity | discriminate]).
  destruct (kw_get "birth_date" kw) as [[]|]; cbn in H;
    try (inversion H; subst; split; [reflexivity | discriminate]).
  destruct (kw_get "addresses" kw) as [v|]; cbn in H;
    [|inversion H; subst; split; [reflexivity | discriminate]].
  destruct (as_address_list v); cbn in H;
    [|inversion H; subst; split; [reflexivity | discriminate]].
  destruct i; cbn in H;
    try (inversion H; subst; split; [reflexivity | discriminate]).
  destruct c; cbn in H;
    try (inversion H; subst; split; [reflexivity | discriminate]).
  destruct t; cbn in H;
    try (inversion H; subst; split; [reflexivity | discriminate]).
  inversion H; subst. split; [reflexivity|].
  intros r [= <-]. repeat split.
Qed.

Lemma merged_person_kw (old : PersonRead.t) (u : PersonUpdate.t)
      (field : string) :
  kw_get field (kw_update (PersonRead.model_dump old)
                          (PersonUpdate.model_dump_exclude_unset u))
  = match (if PersonUpdate.is_set field u
           then kw_get field (PersonUpdate.model_dump u)
           else None) with
    | Some v => Some v
    | None => kw_get field (PersonRead.model_dump old)
    end.
Proof.
  rewrite kw_get_update.
  - unfold PersonUpdate.model_dump_exclude_unset.
    now rewrite (kw_get_filter (fun f => PersonUpdate.is_set f u)).
  - apply NoDup_keys_filter. simpl.
    repeat constructor; simpl; intuition discriminate.
Qed.

Lemma update_person_run (person_id : UUID) (u : PersonUpdate.t)
      (w : World) (old : PersonRead.t) :
  dict_get person_id (persons w) = Some old ->
  update_person person_id u w
  = match new_PersonRead
            (kw_update (PersonRead.model_dump old)
                       (PersonUpdate.model_dump_exclude_unset u)) w with
    | (Ok r, w1) =>
        (Ok r, set_persons (dict_set person_id r (persons w1)) w1)
    | (Raise e, w1) => (Raise e, w1)
    end.
Proof.
  intros Hget.
  assert (Hin : dict_contains person_id (persons w) = true)
    by (apply dict_get_contains; eauto).
  unfold update_person, bind, contains, getitem.
  cbn [load persons_db negb]. rewrite Hin. cbn [negb]. rewrite Hget.
  destruct (new_PersonRead _ w) as [[r|e] w1]; [|reflexivity].
  unfold setitem. cbn [load save persons_db persons set_persons].
  now rewrite dict_get_set_same.
Qed.

Lemma update_person_absent (person_id : UUID) (u : PersonUpdate.t)
      (w : World) :
  dict_get person_id (persons w) = None ->
  update_person person_id u w
  = (Raise (HTTPException 404 "Person not found"), w).
Proof.
  intros Hget.
  assert (Hc : dict_contains person_id (persons w) = false).
  { destruct (dict_contains person_id (persons w)) eqn:E; [|reflexivity].
    apply dict_get_contains in E. destruct E as [v Hv]. congruence. }
  unfold update_person, bind, contains.
  cbn [load persons_db]. now rewrite Hc.
Qed.

(** What a PATCH does to a stored person. *)
Lemma update_person_effect (person_id : UUID) (u : PersonUpdate.t)
      (w w' : World) (old : PersonRead.t) (res : Result PersonRead.t) :
  dict_get person_id (persons w) = Some old ->
  update_person person_id u w = (res, w') ->
  match res with
  | Raise _ => w' = w
  | Ok r =>
      w' = set_persons (dict_set person_id r (persons w)) w
      /\ PersonRead.id r = PersonRead.id old
      /\ PersonRead.created_at r = PersonRead.created_at old
      /\ PersonRead.updated_at r = PersonRead.updated_at old
  end.
Proof.
  intros Hstored Hrun.
  rewrite (update_person_run _ u _ Hstored) in Hrun.
  destruct (new_PersonRead _ w) as [res1 w1] eqn:Hnew.
  eapply new_PersonRead_stamped in Hnew;
    [| rewrite merged_person_kw; cbn; destruct (PersonUpdate.is_set _ u);
       reflexivity ..].
  destruct Hnew as [-> Hfields].
  destruct res1 as [r|e]; inversion Hrun; subst; [|reflexivity].
  destruct (Hfields r eq_refl) as (Hi & Hc & Ht).
  split; [reflexivity|].
  repeat split; congruence.
Qed.

Lemma all_some_as_address_model_dump (l : list AddressBase.t) :
  all_some (map as_address
                (map (fun a => VDict (AddressBase.model_dump a)) l))
  = Some l.
Proof. exact (as_address_list_model_dump l). Qed.

(** [create_person] draws one identifier and reads the clock twice. *)
Lemma create_person_run (person : PersonCreate.t) (w : World) :
  let r := PersonRead.Build (PersonCreate.uni person)
                            (PersonCreate.first_name person)
                            (PersonCreate.last_name person)
                            (PersonCreate.email person)
                            (PersonCreate.phone person)
                            (PersonCreate.birth_date person)
                            (PersonCreate.addresses person)
                            (uuid_source w (uuid_draws w))
                            (clock w (clock_reads w))
                            (clock w (S (clock_reads w))) in
  create_person person w
  = (Ok r,
     mkWorld (dict_set (PersonRead.id r) r (persons w))
             (addresses w) (classes w) (accounts w)
             (clock w) (S (S (clock_reads w)))
             (uuid_source w) (S (uuid_draws w))).
Proof.
  destruct person as [uni fn ln em ph bd addrs].
  unfold create_person, new_PersonRead, bind, required, with_default_factory.
  cbn [PersonCreate.model_dump kw_get String.eqb Ascii.eqb Bool.eqb
       PersonCreate.uni PersonCreate.first_name PersonCreate.last_name
       PersonCreate.email PersonCreate.phone PersonCreate.birth_date
       PersonCreate.addresses as_str as_date ret].
  unfold as_address_list. rewrite all_some_as_address_model_dump.
  reflexivity.
Qed.

(** X12.  [create_person] always succeeds: the record returned carries the
    payload's fields, the embedded addresses as sent and in the order
    sent, and the identifier drawn from [uuid4]; it is stored under that
    identifier and [get_person] on it returns the same record. *)
Theorem create_person_stores_the_payload_under_its_id
        (person : PersonCreate.t) (w : World) :
  exists r w',
    create_person person w = (Ok r, w')
    /\ PersonRead.uni r = PersonCreate.uni person
    /\ PersonRead.first_name r = PersonCreate.first_name person
    /\ PersonRead.last_name r = PersonCreate.last_name person
    /\ PersonRead.email r = PersonCreate.email person
    /\ PersonRead.phone r = PersonCreate.phone person
    /\ PersonRead.birth_date r = PersonCreate.birth_date person
    /\ PersonRead.addresses r = PersonCreate.addresses person
    /\ PersonRead.id r = uuid_source w (uuid_draws w)
    /\ get_person (PersonRead.id r) w' = (Ok r, w')
    /\ addresses w' = addresses w /\ classes w' = classes w
    /\ accounts w' = accounts w.
Proof.
  do 2 eexists. split; [apply create_person_run|].
  cbn [PersonRead.uni PersonRead.first_name PersonRead.last_name
       PersonRead.email PersonRead.phone PersonRead.birth_date
       PersonRead.addresses PersonRead.id addresses classes accounts].
  repeat (split; [reflexivity|]).
  split; [|repeat split].
  unfold get_person. rewrite lookup_or_404_run.
  cbn [load persons_db persons]. now rewrite dict_get_set_same.
Qed.

(** ** What a PATCH does to the world *)

Lemma update_account_effect (account_id : UUID) (u : AccountUpdate.t)
      (w w' : World) (old : AccountRead.t) (res : Result AccountRead.t) :
  dict_get account_id (accounts w) = Some old ->
  update_account account_id u w = (res, w') ->
  match res with
  | Raise _ => w' = w
  | Ok r =>
      w' = set_accounts (dict_set account_id r (accounts w)) w
      /\ AccountRead.id r = AccountRead.id old
      /\ AccountRead.created_at r = AccountRead.created_at old
      /\ AccountRead.updated_at r = AccountRead.updated_at old
  end.
Proof.
  intros Hstored Hrun.
  rewrite (update_account_run _ u _ Hstored), new_AccountRead_merged in Hrun.
  destruct (overlay (AccountUpdate.is_set "username" u)
                    (AccountUpdate.username u) (AccountRead.username old)),
           (overlay (AccountUpdate.is_set "number_id" u)
                    (AccountUpdate.number_id u) (AccountRead.number_id old)),
           (overlay (AccountUpdate.is_set "amount" u)
                    (AccountUpdate.amount u) (AccountRead.amount old));
    inversion Hrun; subst; repeat split.
Qed.

Lemma update_class_effect (class_id : UUID) (u : ClassUpdate.t)
      (w w' : World) (old : ClassRead.t) (res : Result ClassRead.t) :
  dict_get class_id (classes w) = Some old ->
  update_class class_id u w = (res, w') ->
  match res with
  | Raise _ => w' = w
  | Ok r =>
      w' = set_classes (dict_set class_id r (classes w)) w
      /\ ClassRead.created_at r = ClassRead.created_at old
      /\ ClassRead.updated_at r = ClassRead.updated_at old
  end.
Proof.
  intros Hstored Hrun.
  rewrite (update_class_run _ u _ Hstored), new_ClassRead_merged in Hrun.
  destruct (overlay (ClassUpdate.is_set "name" u)
                    (ClassUpdate.name u) (ClassRead.name old));
    inversion Hrun; subst; repeat split.
Qed.

Lemma update_class_absent (class_id : UUID) (u : ClassUpdate.t) (w : World) :
  dict_get class_id (classes w) = None ->
  update_class class_id u w
  = (Raise (HTTPException 404 "Class not found"), w).
Proof.
  intros Hget.
  assert (Hc : dict_contains class_id (classes w) = false).
  { destruct (dict_contains class_id (classes w)) eqn:E; [|reflexivity].
    apply dict_get_contains in E. destruct E as [v Hv]. congruence. }
  unfold update_class, bind, contains.
  cbn [load classes_db]. now rewrite Hc.
Qed.

(** X13.  A PATCH that raises, on any of the four collections and for
    whatever reason, leaves the world exactly as it was: a merge is written
    only after the merged record has been built. *)
Theorem failed_patch_leaves_the_world_unchanged
        (k : UUID) (w w' : World) (e : Exception) :
  (forall u, update_account k u w = (Raise e, w') -> w' = w)
  /\ (forall u, update_class k u w = (Raise e, w') -> w' = w)
  /\ (forall u, update_address k u w = (Raise e, w') -> w' = w)
  /\ (forall u, update_person k u w = (Raise e, w') -> w' = w).
Proof.
  split; [|split; [|split]]; intros u Hrun.
  - destruct (dict_get k (accounts w)) as [old|] eqn:Hget.
    + exact (@update_account_effect _ _ _ _ _ _ Hget Hrun).
    + rewrite (update_account_absent _ u _ Hget) in Hrun. congruence.
  - destruct (dict_get k (classes w)) as [old|] eqn:Hget.
    + exact (@update_class_effect _ _ _ _ _ _ Hget Hrun).
    + rewrite (update_class_absent _ u _ Hget) in Hrun. congruence.
  - destruct (dict_get k (addresses w)) as [old|] eqn:Hget.
    + exact (@update_address_effect _ _ _ _ _ _ Hget Hrun).
    + rewrite (update_address_absent _ u _ Hget) in Hrun. congruence.
  - destruct (dict_get k (persons w)) as [old|] eqn:Hget.
    + exact (@update_person_effect _ _ _ _ _ _ Hget Hrun).
    + rewrite (update_person_absent _ u _ Hget) in Hrun. congruence.
Qed.

Lemma failed_patch_leaves_the_world_unchanged_witness :
  update_account 7%N patch_null_username world_with_alice
  = (Raise (ValidationError "AccountRead" "username"), world_with_alice).
Proof.
  destruct (update_account 7%N patch_null_username world_with_alice)
    as [res w'] eqn:Hrun.
  assert (Hres : res = Raise (ValidationError "AccountRead" "username"))
    by (vm_compute in Hrun; congruence).
  subst res.
  now rewrite (proj1 (@failed_patch_leaves_the_world_unchanged
                        7%N world_with_alice w' _) _ Hrun).
Defined.



(** ** One request at a time *)

Lemma create_address_fresh_run (a : AddressBase.t) (w : World) :
  dict_contains (AddressBase.id a) (addresses w) = false ->
  let r := AddressRead.Build (AddressBase.id a) (AddressBase.street a)
                             (AddressBase.city a) (AddressBase.state a)
                             (AddressBase.postal_code a)
                             (AddressBase.country a)
                             (clock w (clock_reads w))
                             (clock w (S (clock_reads w))) in
  create_address a w
  = (Ok r,
     mkWorld (persons w) (dict_set (AddressBase.id a) r (addresses w))
             (classes w) (accounts w)
             (clock w) (S (S (clock_reads w)))
             (uuid_source w) (uuid_draws w)).
Proof.
  intros Hc. unfold create_address, bind, contains.
  cbn [load addresses_db]. rewrite Hc.
  rewrite new_AddressRead_of_payload.
  unfold setitem, getitem.
  cbn [load save addresses_db addresses set_addresses persons classes
       accounts clock clock_reads uuid_source uuid_draws].
  rewrite dict_get_set_same. reflexivity.
Qed.

Lemma create_address_duplicate_run (a : AddressBase.t) (w : World) :
  dict_contains (AddressBase.id a) (addresses w) = true ->
  create_address a w
  = (Raise (HTTPException 400 "Address with this ID already exists"), w).
Proof.
  intros Hc. unfold create_address, bind, contains.
  cbn [load addresses_db]. now rewrite Hc.
Qed.

Lemma create_class_keeps_the_stores (cls : ClassCreate.t) (w : World) :
  persons (world_after (create_class cls) w) = persons w
  /\ addresses (world_after (create_class cls) w) = addresses w
  /\ classes (world_after (create_class cls) w) = classes w
  /\ accounts (world_after (create_class cls) w) = accounts w.
Proof. destruct cls as [name [description|]]; repeat split. Qed.

(** What serving one request does to the four stores: nothing, or one
    assignment into one store.  An assignment into [accounts], [persons]
    or [addresses] stores a record either under its own identifier or
    over a stored record with the same identifier; an assignment into
    [classes] can only replace a stored record. *)
Lemma serve_effect (req : Request) (w : World) :
  (persons (serve req w) = persons w
   /\ addresses (serve req w) = addresses w
   /\ classes (serve req w) = classes w
   /\ accounts (serve req w) = accounts w)
  \/ (exists k r,
         accounts (serve req w) = dict_set k r (accounts w)
         /\ (AccountRead.id r = k
             \/ exists old, dict_get k (accounts w) = Some old
                            /\ AccountRead.id r = AccountRead.id old)
         /\ persons (serve req w) = persons w
         /\ addresses (serve req w) = addresses w
         /\ classes (serve req w) = classes w)
  \/ (exists k r,
         persons (serve req w) = dict_set k r (persons w)
         /\ (PersonRead.id r = k
             \/ exists old, dict_get k (persons w) = Some old
                            /\ PersonRead.id r = PersonRead.id old)
         /\ accounts (serve req w) = accounts w
         /\ addresses (serve req w) = addresses w
         /\ classes (serve req w) = classes w)
  \/ (exists k r,
         addresses (serve req w) = dict_set k r (addresses w)
         /\ (AddressRead.id r = k
             \/ exists old, dict_get k (addresses w) = Some old
                            /\ AddressRead.id r = AddressRead.id old)
         /\ accounts (serve req w) = accounts w
         /\ persons (serve req w) = persons w
         /\ classes (serve req w) = classes w)
  \/ (exists k r old,
         classes (serve req w) = dict_set k r (classes w)
         /\ dict_get k (classes w) = Some old
         /\ accounts (serve req w) = accounts w
         /\ persons (serve req w) = persons w
         /\ addresses (serve req w) = addresses w).
Proof.
  destruct req as [a | st c s pc co | i | i u
                   | p | un f l e ph b c co | i | i u
                   | cls | n d | i | i u
                   | a | un n am | i | i u];
    cbn [serve]; unfold world_after.
  - (* POST /addresses *)
    destruct (dict_contains (AddressBase.id a) (addresses w)) eqn:Hc.
    + rewrite (create_address_duplicate_run _ _ Hc). left. repeat split.
    + rewrite (create_address_fresh_run _ _ Hc).
      right; right; right; left. do 2 eexists.
      split; [reflexivity|]. split; [left; reflexivity|]. repeat split.
  - left. repeat split.
  - unfold get_address. rewrite lookup_or_404_run.
    destruct (dict_get i _); left; repeat split.
  - (* PATCH /addresses *)
    destruct (dict_get i (addresses w)) as [old|] eqn:Hget.
    + destruct (update_address i u w) as [res w'] eqn:Hrun.
      pose proof (@update_address_effect _ _ _ _ _ _ Hget Hrun) as H.
      destruct res as [r|e].
      * destruct H as (-> & Hid & _).
        right; right; right; left. exists i, r.
        split; [reflexivity|]. split; [right; eauto|]. repeat split.
      * subst w'. left. repeat split.
    + rewrite (update_address_absent _ u _ Hget). left. repeat split.
  - (* POST /persons *)
    rewrite create_person_run.
    right; right; left. do 2 eexists.
    split; [reflexivity|]. split; [left; reflexivity|]. repeat split.
  - left. repeat split.
  - unfold get_person. rewrite lookup_or_404_run.
    destruct (dict_get i _); left; repeat split.
  - (* PATCH /persons *)
    destruct (dict_get i (persons w)) as [old|] eqn:Hget.
    + destruct (update_person i u w) as [res w'] eqn:Hrun.
      pose proof (@update_person_effect _ _ _ _ _ _ Hget Hrun) as H.
      destruct res as [r|e].
      * destruct H as (-> & Hid & _).
        right; right; left. exists i, r.
        split; [reflexivity|]. split; [right; eauto|]. repeat split.
      * subst w'. left. repeat split.
    + rewrite (update_person_absent _ u _ Hget). left. repeat split.
  - (* POST /classes *)
    left. apply create_class_keeps_the_stores.
  - left. repeat split.
  - unfold get_class. rewrite lookup_or_404_run.
    destruct (dict_get i _); left; repeat split.
  - (* PATCH /classes *)
    destruct (dict_get i (classes w)) as [old|] eqn:Hget.
    + destruct (update_class i u w) as [res w'] eqn:Hrun.
      pose proof (@update_class_effect _ _ _ _ _ _ Hget Hrun) as H.
      destruct res as [r|e].
      * destruct H as (-> & _).
        right; right; right; right. exists i, r, old. repeat split.
        assumption.
      * subst w'. left. repeat split.
    + rewrite (update_class_absent _ u _ Hget). left. repeat split.
  - (* POST /accounts *)
    rewrite create_account_run.
    right; left. do 2 eexists.
    split; [reflexivity|]. split; [left; reflexivity|]. repeat split.
  - left. repeat split.
  - unfold get_account. rewrite lookup_or_404_run.
    destruct (dict_get i _); left; repeat split.
  - (* PATCH /accounts *)
    destruct (dict_get i (accounts w)) as [old|] eqn:Hget.
    + destruct (update_account i u w) as [res w'] eqn:Hrun.
      pose proof (@update_account_effect _ _ _ _ _ _ Hget Hrun) as H.
      destruct res as [r|e].
      * destruct H as (-> & Hid & _).
        right; left. exists i, r.
        split; [reflexivity|]. split; [right; eauto|]. repeat split.
      * subst w'. left. repeat split.
    + rewrite (update_account_absent _ u _ Hget). left. repeat split.
Qed.

(** ** Invariants of the service *)

Lemma serve_all_cons (req : Request) (reqs : list Request) (w : World) :
  serve_all (req :: reqs) w = serve_all reqs (serve req w).
Proof. reflexivity. Qed.

Lemma serve_all_invariant (P : World -> Prop) :
  (forall req w, P w -> P (serve req w)) ->
  forall reqs w, P w -> P (serve_all reqs w).
Proof.
  intros Hstep reqs. induction reqs as [|req reqs IH]; intros w Hw.
  - exact Hw.
  - rewrite serve_all_cons. apply IH, Hstep, Hw.
Qed.

Lemma serve_keeps_classes_empty (req : Request) (w : World) :
  classes w = [] -> classes (serve req w) = [].
Proof.
  intros Hempty.
  destruct (serve_effect req w)
    as [(_ & _ & Hc & _)
       | [(k & r & _ & _ & _ & _ & Hc)
         | [(k & r & _ & _ & _ & _ & Hc)
           | [(k & r & _ & _ & _ & _ & Hc)
             | (k & r & old & _ & Hget & _)]]]];
    try congruence.
  rewrite Hempty in Hget. discriminate.
Qed.

(** X15.  No sequence of requests ever puts a record into [classes]: from
    a state in which the store is empty, it is empty after any requests;
    there, every class listing is empty and every lookup or PATCH of a
    class is answered by the 404 error. *)
Theorem classes_store_is_never_populated
        (w : World) (reqs : list Request) (Hempty : classes w = []) :
  classes (serve_all reqs w) = []
  /\ (forall name description,
         list_classes name description (serve_all reqs w)
         = (Ok [], serve_all reqs w))
  /\ (forall class_id,
         get_class class_id (serve_all reqs w)
         = (Raise (HTTPException 404 "Class not found"), serve_all reqs w))
  /\ (forall class_id update,
         update_class class_id update (serve_all reqs w)
         = (Raise (HTTPException 404 "Class not found"), serve_all reqs w)).
Proof.
  assert (H : classes (serve_all reqs w) = [])
    by (apply (serve_all_invariant (fun w => classes w = []));
        [apply serve_keeps_classes_empty | assumption]).
  split; [assumption|].
  split; [|split].
  - intros name description. unfold list_classes, bind, values.
    cbn [load classes_db]. rewrite H.
    now destruct name, description.
  - intros class_id. unfold get_class. rewrite lookup_or_404_run.
    cbn [load classes_db]. now rewrite H.
  - intros class_id update. apply update_class_absent. now rewrite H.
Qed.

Lemma classes_store_is_never_populated_witness :
  classes (serve_all [POST_classes mathematics_101;
                      POST_accounts alice;
                      PATCH_class 7%N patch_null_description;
                      POST_classes mathematics_101] fresh_world) = []
  /\ get_class 7%N (serve_all [POST_classes mathematics_101] fresh_world)
     = (Raise (HTTPException 404 "Class not found"),
        serve_all [POST_classes mathematics_101] fresh_world).
Proof.
  split.
  - exact (proj1 (@classes_store_is_never_populated
                    fresh_world
                    [POST_classes mathematics_101;
                     POST_accounts alice;
                     PATCH_class 7%N patch_null_description;
                     POST_classes mathematics_101] eq_refl)).
  - exact (proj1 (proj2 (proj2 (@classes_store_is_never_populated
                                  fresh_world
                                  [POST_classes mathematics_101] eq_refl)))
                 7%N).
Defined.

Lemma keyed_by_id_assign {V} (ident : V -> UUID) (d : Dict V) k r :
  keyed_by_id ident d ->
  (ident r = k \/ exists old, dict_get k d = Some old /\ ident r = ident old) ->
  keyed_by_id ident (dict_set k r d).
Proof.
  intros Hd [Hr | (old & Hget & Hr)]; apply keyed_by_id_set; try assumption.
  rewrite Hr. apply (proj2 Hd). now apply dict_In_get.
Qed.

Lemma serve_keeps_stores_keyed_by_id (req : Request) (w : World) :
  stores_keyed_by_id w -> stores_keyed_by_id (serve req w).
Proof.
  unfold stores_keyed_by_id. intros (Ha & Hp & Had).
  destruct (serve_effect req w)
    as [(E1 & E2 & _ & E4)
       | [(k & r & E & Hr & E1 & E2 & _)
         | [(k & r & E & Hr & E1 & E2 & _)
           | [(k & r & E & Hr & E1 & E2 & _)
             | (k & r & old & _ & _ & E1 & E2 & E3)]]]].
  - now rewrite E1, E2, E4.
  - rewrite E, E1, E2.
    split; [apply keyed_by_id_assign; assumption | split; assumption].
  - rewrite E, E1, E2.
    split; [assumption | split; [apply keyed_by_id_assign; assumption | assumption]].
  - rewrite E, E1, E2.
    split; [assumption | split; [assumption | apply keyed_by_id_assign; assumption]].
  - now rewrite E1, E2, E3.
Qed.

(** X16.  In every state the service reaches from its start, each key of
    [accounts], [persons] and [addresses] is the [id] field of the record
    stored under it, and the keys of each store are distinct. *)
Theorem every_record_is_stored_under_its_id
        (w : World) (reqs : list Request) (Hstart : just_started w) :
  (forall k r, dict_get k (accounts (serve_all reqs w)) = Some r ->
               AccountRead.id r = k)
  /\ (forall k r, dict_get k (persons (serve_all reqs w)) = Some r ->
                  PersonRead.id r = k)
  /\ (forall k r, dict_get k (addresses (serve_all reqs w)) = Some r ->
                  AddressRead.id r = k)
  /\ NoDup (dict_keys (accounts (serve_all reqs w)))
  /\ NoDup (dict_keys (persons (serve_all reqs w)))
  /\ NoDup (dict_keys (addresses (serve_all reqs w))).
Proof.
  assert (H : stores_keyed_by_id (serve_all reqs w)).
  { apply (serve_all_invariant stores_keyed_by_id).
    - apply serve_keeps_stores_keyed_by_id.
    - destruct Hstart as (Hp & Ha & _ & Hacc). unfold stores_keyed_by_id.
      rewrite Hp, Ha, Hacc. repeat split; try constructor; intros k r []. }
  destruct H as ((N1 & I1) & (N2 & I2) & (N3 & I3)).
  repeat split; try assumption; intros k r Hget;
    [apply I1 | apply I2 | apply I3]; now apply dict_In_get.
Qed.

Lemma every_record_is_stored_under_its_id_witness :
  exists r,
    dict_get 7%N (accounts (serve_all [POST_accounts alice;
                                       PATCH_account 7%N patch_amount;
                                       POST_addresses nyc] fresh_world))
    = Some r
    /\ AccountRead.id r = 7%N.
Proof.
  eexists. split; [vm_compute; reflexivity|].
  apply (proj1 (@every_record_is_stored_under_its_id
                  fresh_world
                  [POST_accounts alice; PATCH_account 7%N patch_amount;
                   POST_addresses nyc]
                  (conj eq_refl (conj eq_refl (conj eq_refl eq_refl))))).
  vm_compute. reflexivity.
Defined.

Lemma dict_keys_after_assignment {V} (d : Dict V) k r :
  exists added, dict_keys (dict_set k r d) = (dict_keys d ++ added)%list.
Proof.
  rewrite dict_keys_set. destruct (dict_contains k d).
  - exists []. now rewrite app_nil_r.
  - now exists [k].
Qed.

Lemma serve_only_adds_keys (req : Request) (w : World) :
  (exists added, dict_keys (accounts (serve req w))
                 = (dict_keys (accounts w) ++ added)%list)
  /\ (exists added, dict_keys (persons (serve req w))
                    = (dict_keys (persons w) ++ added)%list)
  /\ (exists added, dict_keys (addresses (serve req w))
                    = (dict_keys (addresses w) ++ added)%list)
  /\ (exists added, dict_keys (classes (serve req w))
                    = (dict_keys (classes w) ++ added)%list).
Proof.
  assert (Hsame : forall V (d : Dict V),
             exists added, dict_keys d = (dict_keys d ++ added)%list)
    by (intros V d; exists []; now rewrite app_nil_r).
  destruct (serve_effect req w)
    as [(E1 & E2 & E3 & E4)
       | [(k & r & E & _ & E1 & E2 & E3)
         | [(k & r & E & _ & E1 & E2 & E3)
           | [(k & r & E & _ & E1 & E2 & E3)
             | (k & r & old & E & _ & E1 & E2 & E3)]]]];
    rewrite ?E, ?E1, ?E2, ?E3, ?E4;
    repeat split;
    first [apply Hsame | apply dict_keys_after_assignment].
Qed.

(** X17.  No request removes or moves a key: after any sequence of
    requests the keys of each store are the keys it had before, in the
    same order, followed by the keys added since. *)
Theorem requests_only_add_keys (reqs : list Request) (w : World) :
  (exists added, dict_keys (accounts (serve_all reqs w))
                 = (dict_keys (accounts w) ++ added)%list)
  /\ (exists added, dict_keys (persons (serve_all reqs w))
                    = (dict_keys (persons w) ++ added)%list)
  /\ (exists added, dict_keys (addresses (serve_all reqs w))
                    = (dict_keys (addresses w) ++ added)%list)
  /\ (exists added, dict_keys (classes (serve_all reqs w))
                    = (dict_keys (classes w) ++ added)%list).
Proof.
  revert w. induction reqs as [|req reqs IH]; intros w.
  - repeat split; exists []; now rewrite app_nil_r.
  - rewrite serve_all_cons.
    destruct (IH (serve req w))
      as ((a1 & H1) & (a2 & H2) & (a3 & H3) & (a4 & H4)).
    destruct (serve_only_adds_keys req w)
      as ((b1 & G1) & (b2 & G2) & (b3 & G3) & (b4 & G4)).
    rewrite H1, H2, H3, H4, G1, G2, G3, G4.
    repeat split; eexists; rewrite <- app_assoc; reflexivity.
Qed.

(** X18.  In every state the service reaches from its start, whatever an
    account or person listing returns can be fetched by its identifier:
    [get_account] on the [id] of a listed account returns that account,
    and likewise [get_person]. *)
Theorem listed_records_can_be_fetched_by_id
        (w : World) (reqs : list Request) (Hstart : just_started w) :
  (forall username number_id amount answer r,
      list_accounts username number_id amount (serve_all reqs w)
      = (Ok answer, serve_all reqs w) ->
      In r answer ->
      get_account (AccountRead.id r) (serve_all reqs w)
      = (Ok r, serve_all reqs w))
  /\ (forall uni first_name last_name email phone birth_date city country
             answer p,
         list_persons uni first_name last_name email phone birth_date
                      city country (serve_all reqs w)
         = (Ok answer, serve_all reqs w) ->
         In p answer ->
         get_person (PersonRead.id p) (serve_all reqs w)
         = (Ok p, serve_all reqs w)).
Proof.
  assert (H : stores_keyed_by_id (serve_all reqs w)).
  { apply (serve_all_invariant stores_keyed_by_id).
    - apply serve_keeps_stores_keyed_by_id.
    - destruct Hstart as (Hp & Ha & _ & Hacc). unfold stores_keyed_by_id.
      rewrite Hp, Ha, Hacc. repeat split; try constructor; intros k r []. }
  destruct H as ((N1 & I1) & (N2 & I2) & _).
  split.
  - intros username number_id amount answer r Hlist Hin.
    assert (Hscan : In r (dict_values (accounts (serve_all reqs w))))
      by (apply (list_accounts_In username number_id amount); eauto).
    unfold dict_values in Hscan. apply in_map_iff in Hscan.
    destruct Hscan as [[k r'] [Heq Hentry]]. simpl in Heq. subst r'.
    rewrite (I1 _ _ Hentry).
    unfold get_account. rewrite lookup_or_404_run.
    cbn [load accounts_db]. now rewrite (@dict_get_In _ _ _ _ N1 Hentry).
  - intros uni first_name last_name email phone birth_date city country
           answer p Hlist Hin.
    assert (Hscan : In p (dict_values (persons (serve_all reqs w))))
      by (apply (list_persons_In uni first_name last_name email phone
                                 birth_date city country); eauto).
    unfold dict_values in Hscan. apply in_map_iff in Hscan.
    destruct Hscan as [[k p'] [Heq Hentry]]. simpl in Heq. subst p'.
    rewrite (I2 _ _ Hentry).
    unfold get_person. rewrite lookup_or_404_run.
    cbn [load persons_db]. now rewrite (@dict_get_In _ _ _ _ N2 Hentry).
Qed.

Lemma listed_records_can_be_fetched_by_id_witness :
  get_account 7%N (serve_all [POST_accounts alice;
                              PATCH_account 7%N patch_amount] fresh_world)
  = (Ok (AccountRead.Build "alice" 1 float_20 7%N 1000%Z 1001%Z),
     serve_all [POST_accounts alice; PATCH_account 7%N patch_amount]
               fresh_world).
Proof.
  apply (proj1 (@listed_records_can_be_fetched_by_id
                  fresh_world
                  [POST_accounts alice; PATCH_account 7%N patch_amount]
                  (conj eq_refl (conj eq_refl (conj eq_refl eq_refl))))
               None None (Some float_20)
               [AccountRead.Build "alice" 1 float_20 7%N 1000%Z 1001%Z]
               (AccountRead.Build "alice" 1 float_20 7%N 1000%Z 1001%Z)).
  - vm_compute. reflexivity.
  - left. reflexivity.
Defined.

(** ** Dump and rebuild *)


(** ** The text form of a date *)

(** Reading a zero-padded number back gives the number. *)
Lemma zero_padded_reads_back (width n : nat) :
  option_map Nat.of_uint (NilEmpty.uint_of_string (zero_padded width n))
  = Some n.
Proof.
  unfold zero_padded. generalize (width - String.length (digits n)).
  intros k. induction k as [|k IH]; cbn [zeros append].
  - unfold digits, NilZero.string_of_uint.
    pose proof (DecimalNat.Unsigned.of_to n) as Hn.
    destruct (Nat.to_uint n) eqn:E;
      try (rewrite NilEmpty.usu; cbn [option_map]; congruence).
    simpl in Hn. now subst n.
  - cbn [NilEmpty.uint_of_string].
    destruct (NilEmpty.uint_of_string (zeros k ++ digits n)) as [d|];
      [|discriminate]. exact IH.
Qed.

Lemma zero_padded_inj (width a b : nat) :
  zero_padded width a = zero_padded width b -> a = b.
Proof.
  intros Heq. pose proof (zero_padded_reads_back width a) as Ha.
  rewrite Heq, zero_padded_reads_back in Ha. congruence.
Qed.

(** Two texts made of digits and each followed by a dash: equal wholes
    have equal parts. *)
Lemma split_at_dash (a b x y : string) :
  NilEmpty.uint_of_string a <> None ->
  NilEmpty.uint_of_string b <> None ->
  (a ++ String "-" x = b ++ String "-" y)%string -> a = b /\ x = y.
Proof.
  revert b. induction a as [|c a IH]; intros [|c' b] Ha Hb Heq;
    cbn [append] in Heq.
  - injection Heq as ->. auto.
  - exfalso. injection Heq as <- _. apply Hb. cbn.
    now destruct (NilEmpty.uint_of_string b).
  - exfalso. injection Heq as -> _. apply Ha. cbn.
    now destruct (NilEmpty.uint_of_string a).
  - injection Heq as -> Heq.
    destruct (IH b) as [-> ->]; auto.
    + intros H. apply Ha. cbn. now rewrite H.
    + intros H. apply Hb. cbn. now rewrite H.
Qed.

Lemma zero_padded_is_digits (width n : nat) :
  NilEmpty.uint_of_string (zero_padded width n) <> None.
Proof.
  pose proof (zero_padded_reads_back width n) as H.
  destruct (NilEmpty.uint_of_string (zero_padded width n)); discriminate.
Qed.

(** [str] is one-to-one on dates. *)
Lemma str_date_inj (d1 d2 : date) : str_date d1 = str_date d2 -> d1 = d2.
Proof.
  destruct d1 as [y1 m1 dd1], d2 as [y2 m2 dd2].
  unfold str_date. cbn [year month day]. intros Heq.
  apply split_at_dash in Heq; try apply zero_padded_is_digits.
  destruct Heq as [Hy Heq].
  apply split_at_dash in Heq; try apply zero_padded_is_digits.
  destruct Heq as [Hm Hd].
  apply zero_padded_inj in Hy, Hm, Hd. congruence.
Qed.

(** X20.  Filtering the persons by the text form of a date [d] returns
    exactly the persons born on [d]: on canonical text the string
    comparison of [list_persons] agrees with equality of dates. *)
Theorem birth_date_filter_on_canonical_text (w : World) (d : date) :
  exists answer,
    list_persons None None None None None (Some (str_date d)) None None w
    = (Ok answer, w)
    /\ forall p, In p answer
                 <-> In p (dict_values (persons w))
                     /\ PersonRead.birth_date p = d.
Proof.
  eexists. split; [apply list_persons_run|].
  intros p. cbn [where_given]. rewrite filter_In, String.eqb_eq.
  split; intros [Hin H]; (split; [assumption|]).
  - now apply str_date_inj.
  - now rewrite H.
Qed.

(** ** Identifiers that never repeat *)

(** What serving one request does to [accounts], [persons] and the
    identifier source: a creation draws the next identifier and assigns
    under it, a successful PATCH assigns under a key already present, and
    every other outcome leaves the two stores and the source alone. *)
Lemma serve_draws (req : Request) (w : World) :
  (accounts (serve req w) = accounts w
   /\ persons (serve req w) = persons w
   /\ uuid_source (serve req w) = uuid_source w
   /\ uuid_draws (serve req w) = uuid_draws w)
  \/ (exists k r,
         dict_contains k (accounts w) = true
         /\ serve req w = set_accounts (dict_set k r (accounts w)) w)
  \/ (exists k r,
         dict_contains k (persons w) = true
         /\ serve req w = set_persons (dict_set k r (persons w)) w)
  \/ (exists r,
         serve req w
         = mkWorld (persons w) (addresses w) (classes w)
                   (dict_set (uuid_source w (uuid_draws w)) r (accounts w))
                   (clock w) (S (S (clock_reads w)))
                   (uuid_source w) (S (uuid_draws w)))
  \/ (exists r,
         serve req w
         = mkWorld (dict_set (uuid_source w (uuid_draws w)) r (persons w))
                   (addresses w) (classes w) (accounts w)
                   (clock w) (S (S (clock_reads w)))
                   (uuid_source w) (S (uuid_draws w))).
Proof.
  destruct req as [a | st c s pc co | i | i u
                   | p | un f l e ph b c co | i | i u
                   | cls | n d | i | i u
                   | a | un n am | i | i u];
    cbn [serve]; unfold world_after.
  - destruct (dict_contains (AddressBase.id a) (addresses w)) eqn:Hc.
    + rewrite (create_address_duplicate_run _ _ Hc). left. repeat split.
    + rewrite (create_address_fresh_run _ _ Hc). left. repeat split.
  - left. repeat split.
  - unfold get_address. rewrite lookup_or_404_run.
    destruct (dict_get i _); left; repeat split.
  - destruct (dict_get i (addresses w)) as [old|] eqn:Hget.
    + destruct (update_address i u w) as [res w'] eqn:Hrun.
      pose proof (@update_address_effect _ _ _ _ _ _ Hget Hrun) as H.
      destruct res as [r|e]; [destruct H as (-> & _) | subst w'];
        left; repeat split.
    + rewrite (update_address_absent _ u _ Hget). left. repeat split.
  - rewrite create_person_run. right; right; right; right. eexists.
    reflexivity.
  - left. repeat split.
  - unfold get_person. rewrite lookup_or_404_run.
    destruct (dict_get i _); left; repeat split.
  - destruct (dict_get i (persons w)) as [old|] eqn:Hget.
    + destruct (update_person i u w) as [res w'] eqn:Hrun.
      pose proof (@update_person_effect _ _ _ _ _ _ Hget Hrun) as H.
      destruct res as [r|e].
      * destruct H as (-> & _). right; right; left. exists i, r.
        split; [apply dict_get_contains; eauto | reflexivity].
      * subst w'. left. repeat split.
    + rewrite (update_person_absent _ u _ Hget). left. repeat split.
  - left. destruct cls as [name [description|]]; repeat split.
  - left. repeat split.
  - unfold get_class. rewrite lookup_or_404_run.
    destruct (dict_get i _); left; repeat split.
  - destruct (dict_get i (classes w)) as [old|] eqn:Hget.
    + destruct (update_class i u w) as [res w'] eqn:Hrun.
      pose proof (@update_class_effect _ _ _ _ _ _ Hget Hrun) as H.
      destruct res as [r|e]; [destruct H as (-> & _) | subst w'];
        left; repeat split.
    + rewrite (update_class_absent _ u _ Hget). left. repeat split.
  - rewrite create_account_run. right; right; right; left. eexists.
    reflexivity.
  - left. repeat split.
  - unfold get_account. rewrite lookup_or_404_run.
    destruct (dict_get i _); left; repeat split.
  - destruct (dict_get i (accounts w)) as [old|] eqn:Hget.
    + destruct (update_account i u w) as [res w'] eqn:Hrun.
      pose proof (@update_account_effect _ _ _ _ _ _ Hget Hrun) as H.
      destruct res as [r|e].
      * destruct H as (-> & _). right; left. exists i, r.
        split; [apply dict_get_contains; eauto | reflexivity].
      * subst w'. left. repeat split.
    + rewrite (update_account_absent _ u _ Hget). left. repeat split.
Qed.

Lemma keys_of_assignment {V} (d : Dict V) k r k' :
  In k' (dict_keys (dict_set k r d)) -> In k' (dict_keys d) \/ k' = k.
Proof.
  rewrite dict_keys_set. destruct (dict_contains k d); [auto|].
  rewrite in_app_iff. simpl. intuition.
Qed.

(** The keys of [accounts] and [persons] are identifiers already drawn. *)
Lemma serve_keeps_keys_drawn (source : nat -> UUID) (req : Request)
      (w : World) :
  (uuid_source w = source
   /\ (forall k, In k (dict_keys (accounts w)) ->
                 exists i, i < uuid_draws w /\ k = source i)
   /\ (forall k, In k (dict_keys (persons w)) ->
                 exists i, i < uuid_draws w /\ k = source i)) ->
  uuid_source (serve req w) = source
  /\ (forall k, In k (dict_keys (accounts (serve req w))) ->
                exists i, i < uuid_draws (serve req w) /\ k = source i)
  /\ (forall k, In k (dict_keys (persons (serve req w))) ->
                exists i, i < uuid_draws (serve req w) /\ k = source i).
Proof.
  intros (Hs & Ha & Hp).
  destruct (serve_draws req w)
    as [(E1 & E2 & E3 & E4)
       | [(k & r & Hc & E)
         | [(k & r & Hc & E)
           | [(r & E) | (r & E)]]]].
  - rewrite E1, E2, E3, E4. auto.
  - rewrite E. cbn [accounts persons set_accounts uuid_source uuid_draws].
    rewrite dict_keys_set_present by assumption. auto.
  - rewrite E. cbn [accounts persons set_persons uuid_source uuid_draws].
    rewrite dict_keys_set_present by assumption. auto.
  - rewrite E. cbn [accounts persons uuid_source uuid_draws].
    split; [assumption|]. split.
    + intros k Hk. apply keys_of_assignment in Hk.
      destruct Hk as [Hk | ->].
      * destruct (Ha k Hk) as (i & Hi & ->). exists i. split; [lia|reflexivity].
      * exists (uuid_draws w). split; [lia | now rewrite Hs].
    + intros k Hk. destruct (Hp k Hk) as (i & Hi & ->).
      exists i. split; [lia|reflexivity].
  - rewrite E. cbn [accounts persons uuid_source uuid_draws].
    split; [assumption|]. split.
    + intros k Hk. destruct (Ha k Hk) as (i & Hi & ->).
      exists i. split; [lia|reflexivity].
    + intros k Hk. apply keys_of_assignment in Hk.
      destruct Hk as [Hk | ->].
      * destruct (Hp k Hk) as (i & Hi & ->). exists i. split; [lia|reflexivity].
      * exists (uuid_draws w). split; [lia | now rewrite Hs].
Qed.

(** X21.  If [uuid4] never returns the same identifier twice, then in
    every state the service reaches from its start a creation never
    overwrites: [create_account] stores its record under a key that was
    not present and the listing grows by exactly that record, and
    [create_person] likewise stores under a key that was not present. *)
Theorem creation_never_overwrites_when_identifiers_are_unique
        (w : World) (reqs : list Request)
        (Hstart : just_started w)
        (Hunique : forall i j, uuid_source w i = uuid_source w j -> i = j) :
  (forall account,
      exists r w',
        create_account account (serve_all reqs w) = (Ok r, w')
        /\ dict_contains (AccountRead.id r) (accounts (serve_all reqs w))
           = false
        /\ dict_values (accounts w')
           = (dict_values (accounts (serve_all reqs w)) ++ [r])%list)
  /\ (forall person,
         exists r w',
           create_person person (serve_all reqs w) = (Ok r, w')
           /\ dict_contains (PersonRead.id r) (persons (serve_all reqs w))
              = false
           /\ dict_values (persons w')
              = (dict_values (persons (serve_all reqs w)) ++ [r])%list).
Proof.
  assert (H : uuid_source (serve_all reqs w) = uuid_source w
              /\ (forall k, In k (dict_keys (accounts (serve_all reqs w))) ->
                    exists i, i < uuid_draws (serve_all reqs w)
                              /\ k = uuid_source w i)
              /\ (forall k, In k (dict_keys (persons (serve_all reqs w))) ->
                    exists i, i < uuid_draws (serve_all reqs w)
                              /\ k = uuid_source w i)).
  { apply (serve_all_invariant
             (fun w' =>
                uuid_source w' = uuid_source w
                /\ (forall k, In k (dict_keys (accounts w')) ->
                      exists i, i < uuid_draws w' /\ k = uuid_source w i)
                /\ (forall k, In k (dict_keys (persons w')) ->
                      exists i, i < uuid_draws w' /\ k = uuid_source w i))).
    - intros req w0. apply serve_keeps_keys_drawn.
    - destruct Hstart as (Hp & _ & _ & Ha). rewrite Hp, Ha.
      split; [reflexivity|]. split; intros k []. }
  destruct H as (Hs & Ha & Hp).
  assert (Hfresh_a : dict_contains
                       (uuid_source (serve_all reqs w)
                                    (uuid_draws (serve_all reqs w)))
                       (accounts (serve_all reqs w)) = false).
  { apply dict_contains_false_keys. intros Hin.
    destruct (Ha _ Hin) as (i & Hi & Heq). rewrite Hs in Heq.
    apply Hunique in Heq. lia. }
  assert (Hfresh_p : dict_contains
                       (uuid_source (serve_all reqs w)
                                    (uuid_draws (serve_all reqs w)))
                       (persons (serve_all reqs w)) = false).
  { apply dict_contains_false_keys. intros Hin.
    destruct (Hp _ Hin) as (i & Hi & Heq). rewrite Hs in Heq.
    apply Hunique in Heq. lia. }
  split.
  - intros account. do 2 eexists. split; [apply create_account_run|].
    cbn [AccountRead.id accounts]. split; [assumption|].
    now apply dict_values_set_fresh.
  - intros person. do 2 eexists. split; [apply create_person_run|].
    cbn [PersonRead.id persons]. split; [assumption|].
    now apply dict_values_set_fresh.
Qed.

Lemma creation_never_overwrites_when_identifiers_are_unique_witness :
  exists r w',
    create_account (AccountCreate.Build "bob" 2 float_20)
                   (serve_all [POST_accounts alice; POST_persons ada]
                              fresh_world)
    = (Ok r, w')
    /\ dict_contains (AccountRead.id r)
                     (accounts (serve_all [POST_accounts alice;
                                           POST_persons ada] fresh_world))
       = false.
Proof.
  destruct (proj1 (@creation_never_overwrites_when_identifiers_are_unique
                     fresh_world [POST_accounts alice; POST_persons ada]
                     (conj eq_refl (conj eq_refl (conj eq_refl eq_refl)))
                     ltac:(intros i j H; cbv [fresh_world uuid_source] in H; lia))
                  (AccountCreate.Build "bob" 2 float_20))
    as (r & w' & Hrun & Hfresh & _).
  exists r, w'. exact (conj Hrun Hfresh).
Defined.
